(** * The Wordpress controller: reconciliation pass, migration, pipeline, reaper

    A shallow embedding of [pkg/controller/wordpress/wordpress_controller.go].

    The controller talks to collaborators that live outside that file: the
    object-store client ([r.Get], [r.Update], [r.Status().Update],
    [r.Delete]), the scheme defaulter, the syncer constructors of package
    [sync], and [syncer.Sync].  Every such call is a node of a finite
    interaction tree ([Prog]); a handler, about which nothing is assumed,
    answers the calls, and running a pass yields the returned value together
    with the trace of calls and answers.  Statements about what a pass does or
    does not do are statements about that trace, for every handler. *)

From Stdlib Require Import ZArith.
From stdpp Require Import gmap strings list.

Open Scope string_scope.
Open Scope list_scope.

(** ** Data model *)

(** [k8s.io/apimachinery/pkg/types] *)
Module types.
Record NamespacedName := { Namespace : string; Name : string }.
End types.

(** [k8s.io/apimachinery/pkg/apis/meta/v1]: the owner reference of a child
    object.  [Controller] is a [*bool] in Go. *)
Module metav1.
Record OwnerReference := {
    APIVersion : string;
    Kind : string;
    Name : string;
    UID : string;
    Controller : option bool
  }.
End metav1.

(** [k8s.io/api/core/v1]: only nil-ness of a claim spec is read by the
    controller, so its content is kept to one field. *)
Module corev1.
Record PersistentVolumeClaimSpec := { VolumeName : string }.
Record Secret := { Name : string; Namespace : string }.
End corev1.

(** [k8s.io/api/apps/v1] *)
Module appsv1.
Record DeploymentStatus := { Replicas : Z }.
Record Deployment := { Name : string; Namespace : string; Status : DeploymentStatus }.
End appsv1.

(** [k8s.io/api/batch/v1beta1] *)
Module batchv1beta1.
Record CronJob := {
    Name : string;
    Namespace : string;
    OwnerReferences : list metav1.OwnerReference
  }.
End batchv1beta1.

(** [pkg/apis/wordpress/v1alpha1]: the fields of the Wordpress resource the
    controller reads or writes.  Pointers to structs are [option]s, slices
    are lists (a nil slice and an empty one are both [[]], the code only
    takes their [len]), [int32] is [Z] (never computed with, only
    compared). *)
Module wordpressv1alpha1.
Record RouteSpec := { Domain : string; Path : string }.

Record CodeVolumeSpec := {
    CodePersistentVolumeClaim : option corev1.PersistentVolumeClaimSpec
  }.

Record MediaVolumeSpec := {
    MediaPersistentVolumeClaim : option corev1.PersistentVolumeClaimSpec
  }.

Record WordpressSpec := {
    Routes : list RouteSpec;
    Domains : list string;
    CodeVolumeSpec_ : option CodeVolumeSpec;
    MediaVolumeSpec_ : option MediaVolumeSpec
  }.

Record WordpressStatus := { Replicas : Z }.

Record Wordpress := {
    Name : string;
    Namespace : string;
    UID : string;
    Spec : WordpressSpec;
    Status : WordpressStatus
  }.

  (** Field assignments [x.Spec.Routes = v], [x.Spec.Domains = v],
      [x.Status.Replicas = v]. *)
Definition set_Routes (v : list RouteSpec) (x : Wordpress) : Wordpress :=
    {| Name := Name x; Namespace := Namespace x; UID := UID x;
       Spec := {| Routes := v;
                  Domains := Domains (Spec x);
                  CodeVolumeSpec_ := CodeVolumeSpec_ (Spec x);
                  MediaVolumeSpec_ := MediaVolumeSpec_ (Spec x) |};
       Status := Status x |}.

Definition set_Domains (v : list string) (x : Wordpress) : Wordpress :=
    {| Name := Name x; Namespace := Namespace x; UID := UID x;
       Spec := {| Routes := Routes (Spec x);
                  Domains := v;
                  CodeVolumeSpec_ := CodeVolumeSpec_ (Spec x);
                  MediaVolumeSpec_ := MediaVolumeSpec_ (Spec x) |};
       Status := Status x |}.

Definition set_Replicas (v : Z) (x : Wordpress) : Wordpress :=
    {| Name := Name x; Namespace := Namespace x; UID := UID x;
       Spec := Spec x;
       Status := {| Replicas := v |} |}.
End wordpressv1alpha1.

Import wordpressv1alpha1.

(** [sigs.k8s.io/controller-runtime/pkg/reconcile] *)
Module reconcile.
Record Request := { NamespacedName : types.NamespacedName }.
Record Result := { Requeue : bool; RequeueAfter : Z }.
  (** [reconcile.Result{}] *)
Definition zero : Result := {| Requeue := false; RequeueAfter := 0 |}.
End reconcile.

(** [k8s.io/apimachinery/pkg/api/errors]: a Go [error] value is [option
    error], [None] being nil.  The controller looks at an error only
    through [IsNotFound], which tests its status reason. *)
Module errors.
Inductive StatusReason :=
  | StatusReasonUnknown
  | StatusReasonNotFound
  | StatusReasonAlreadyExists
  | StatusReasonConflict
  | StatusReasonServiceUnavailable.

Record error := { Reason : StatusReason; Message : string }.

Definition IsNotFound (err : option error) : bool :=
    match err with
    | Some e => match Reason e with StatusReasonNotFound => true | _ => false end
    | None => false
    end.
End errors.

Abbreviation error := errors.error.

(** ** Pure functions of the controller *)

(** [ignoreNotFound], lines 167-173. *)
Definition ignoreNotFound (err : option error) : option error :=
  if errors.IsNotFound err then None else err.

(** [isOwnedBy], lines 224-232: a reference matches on its kind and name
    alone. *)
Fixpoint isOwnedBy (refs : list metav1.OwnerReference) (owner : Wordpress) : bool :=
  match refs with
  | [] => false
  | ref :: refs' =>
      if (String.eqb (metav1.Kind ref) "Wordpress" || String.eqb (metav1.Kind ref) "wordpress")
         && String.eqb (metav1.Name ref) (Name owner)
      then true
      else isOwnedBy refs' owner
  end.

(** [maybeMigrate], lines 185-203, on values: [out] starts as a copy of
    [wp]; when it has no routes, the loop over [out.Spec.Domains] appends
    one route per domain and raises the flag at each iteration; the
    deprecated field is cleared last, on every path. *)
Definition migrateStep (acc : Wordpress * bool) (d : string) : Wordpress * bool :=
  let out := acc.1 in
  (set_Routes (Routes (Spec out) ++ [ {| Domain := d; Path := "/" |} ]) out, true).

Definition maybeMigrate (wp : Wordpress) : Wordpress * bool :=
  let out := wp in
  let '(out, needsMigration) :=
    if Nat.eqb (length (Routes (Spec out))) 0
    then foldl migrateStep (out, false) (Domains (Spec out))
    else (out, false) in
  (set_Domains [] out, needsMigration).

(** ** [maybeMigrate] on the Go heap

    The same function with its pointers: [wp] and [out] are addresses of
    Wordpress objects in a heap, and the body writes through [out].  A
    missing object (nil dereference) or an index out of range is [None]. *)

Abbreviation loc := positive.
Abbreviation Heap := (gmap positive Wordpress).

(** Modelled from the spec: [DeepCopy], generated code of package
    [v1alpha1] that the controller file only calls.  It allocates a new
    object holding a copy of the one pointed to ("a transformed copy", "the
    original is left untouched"); the slices of the copy have backing arrays
    of their own, which is why slices are values here. *)
Definition DeepCopy (p : loc) (h : Heap) : option (loc * Heap) :=
  wp ← h !! p;
  let q := fresh (dom h) in
  Some (q, <[q := wp]> h).

(** One iteration of [for i := range out.Spec.Domains], reading
    [out.Spec.Domains[i]] and storing the grown [out.Spec.Routes]. *)
Definition migrateIter (out : loc) (st : option (Heap * bool)) (i : nat)
  : option (Heap * bool) :=
  '(h, _) ← st;
  o ← h !! out;
  d ← Domains (Spec o) !! i;
  Some (<[out := set_Routes (Routes (Spec o) ++ [ {| Domain := d; Path := "/" |} ]) o]> h,
        true).

Definition maybeMigrate_mem (wp : loc) (h : Heap) : option (loc * bool * Heap) :=
  '(out, h) ← DeepCopy wp h;
  o ← h !! out;
  '(h, needsMigration) ←
    (if Nat.eqb (length (Routes (Spec o))) 0
     then foldl (migrateIter out) (Some (h, false)) (seq 0 (length (Domains (Spec o))))
     else Some (h, false));
  o ← h !! out;
  Some (out, needsMigration, <[out := set_Domains [] o]> h).

(** ** Calls to collaborators, and programs over them *)

(** [syncer.Interface] values are references to syncer objects built by
    package [sync]. *)
Module syncer.
Inductive Interface := Ref (id : nat).
End syncer.

(** [pkg/internal/wordpress]: the component whose name the reaper asks
    for. *)
Module wordpress.
Inductive component := WordpressCron.
End wordpress.

Inductive Call :=
| Get (key : types.NamespacedName)             (* r.Get(ctx, key, wp.Unwrap()) *)
| Update (obj : Wordpress)                     (* r.Update(ctx, obj) *)
| StatusUpdate (obj : Wordpress)               (* r.Status().Update(ctx, obj) *)
| SchemeDefault (obj : Wordpress)              (* r.scheme.Default(obj) *)
| SetDefaults (wp : Wordpress)                 (* wp.SetDefaults() *)
| NewSecretSyncer (wp : Wordpress)
| NewDeploymentSyncer (wp : Wordpress) (secret : corev1.Secret)
| NewServiceSyncer (wp : Wordpress)
| NewIngressSyncer (wp : Wordpress)
| NewCodePVCSyncer (wp : Wordpress)
| NewMediaPVCSyncer (wp : Wordpress)
| SecretObject (s : syncer.Interface)          (* s.Object().( *corev1.Secret) *)
| DeploymentObject (s : syncer.Interface)      (* s.Object().( *appsv1.Deployment) *)
| Sync (s : syncer.Interface)                  (* syncer.Sync(ctx, s, r.recorder) *)
| GetCronJob (key : types.NamespacedName)      (* r.Get(ctx, key, cronJob) *)
| Delete (obj : batchv1beta1.CronJob).         (* r.Delete(ctx, obj) *)

(** What each call hands back.  A [Get] fills the object and returns an
    error; calls that mutate their receiver hand back the mutated object. *)
Definition resp (c : Call) : Type :=
  match c with
  | Get _ => (Wordpress * option error)%type
  | Update _ | StatusUpdate _ | Sync _ | Delete _ => option error
  | SchemeDefault _ | SetDefaults _ => Wordpress
  | NewSecretSyncer _ | NewDeploymentSyncer _ _ | NewServiceSyncer _
  | NewIngressSyncer _ | NewCodePVCSyncer _ | NewMediaPVCSyncer _ => syncer.Interface
  | SecretObject _ => corev1.Secret
  | DeploymentObject _ => appsv1.Deployment
  | GetCronJob _ => (batchv1beta1.CronJob * option error)%type
  end.

Inductive Prog (R : Type) : Type :=
| Ret (r : R)
| Vis (c : Call) (k : resp c -> Prog R).

Arguments Ret {R} r.
Arguments Vis {R} c k.

Fixpoint bind {A B : Type} (m : Prog A) (f : A -> Prog B) : Prog B :=
  match m with
  | Ret a => f a
  | Vis c k => Vis c (fun x => bind (k x) f)
  end.

Definition call (c : Call) : Prog (resp c) := Vis c Ret.

#[global] Instance Prog_ret : MRet Prog := @Ret.
#[global] Instance Prog_bind : MBind Prog := fun A B f m => bind m f.

(** A call with its answer; a trace is a list of those, oldest first. *)
Definition Event : Type := { c : Call & resp c }.
Definition ev (c : Call) (x : resp c) : Event := existT c x.
Definition called (e : Event) : Call := projT1 e.

(** The collaborators: any function from calls to answers over any state. *)
Definition Handler (W : Type) : Type := forall c : Call, W -> resp c * W.

Fixpoint run {W R : Type} (h : Handler W) (p : Prog R) (w : W) : R * W * list Event :=
  match p with
  | Ret r => (r, w, [])
  | Vis c k =>
      let '(x, w1) := h c w in
      let '(r, w2, tr) := run h (k x) w1 in
      (r, w2, ev c x :: tr)
  end.

Definition result {W R : Type} (o : R * W * list Event) : R := o.1.1.
Definition trace {W R : Type} (o : R * W * list Event) : list Event := o.2.

(** [Q] holds of the value returned and of the trace of running [p]. *)
Definition holds {W R : Type} (h : Handler W) (p : Prog R) (w : W)
    (Q : R -> list Event -> Prop) : Prop :=
  Q (result (run h p w)) (trace (run h p w)).

(** Every return path of a program ends in a value satisfying [P],
    whatever the answers to its calls. *)
Inductive Leaves {R : Type} (P : R -> Prop) : Prog R -> Prop :=
| Leaves_Ret (r : R) : P r -> Leaves P (Ret r)
| Leaves_Vis (c : Call) (k : resp c -> Prog R) :
    (forall x : resp c, Leaves P (k x)) -> Leaves P (Vis c k).

(** ** The controller *)

Definition notNil {A : Type} (p : option A) : bool :=
  match p with Some _ => true | None => false end.

(** [wp.Spec.CodeVolumeSpec != nil && wp.Spec.CodeVolumeSpec.PersistentVolumeClaim != nil],
    and the same for the media volume. *)
Definition wantsCodePVC (wp : Wordpress) : bool :=
  match CodeVolumeSpec_ (Spec wp) with
  | Some v => notNil (CodePersistentVolumeClaim v)
  | None => false
  end.

Definition wantsMediaPVC (wp : Wordpress) : bool :=
  match MediaVolumeSpec_ (Spec wp) with
  | Some v => notNil (MediaPersistentVolumeClaim v)
  | None => false
  end.

(** [sync], lines 175-183. *)
Fixpoint sync (syncers : list syncer.Interface) : Prog (option error) :=
  match syncers with
  | [] => mret None
  | s :: syncers' =>
      err ← call (Sync s);
      match err with
      | Some e => mret (Some e)
      | None => sync syncers'
      end
  end.

Section Controller.
  (** [wp.ComponentName], of package [pkg/internal/wordpress]: the
      deterministic name of a component of a site. *)
Variable ComponentName : Wordpress -> wordpress.component -> string.

  (** [cleanupCronJob], lines 205-222. *)
Definition cleanupCronJob (wp : Wordpress) : Prog (option error) :=
    let cronKey := {| types.Name := ComponentName wp wordpress.WordpressCron;
                      types.Namespace := Namespace wp |} in
    '(cronJob, err) ← call (GetCronJob cronKey);
    match err with
    | Some e => mret (ignoreNotFound (Some e))
    | None =>
        if negb (isOwnedBy (batchv1beta1.OwnerReferences cronJob) wp)
        then mret None
        else call (Delete cronJob)
    end.

  (** [Reconcile], lines 110-165. *)
Definition Reconcile (request : reconcile.Request)
    : Prog (reconcile.Result * option error) :=
    '(wp, err) ← call (Get (reconcile.NamespacedName request));
    match err with
    | Some e => mret (reconcile.zero, ignoreNotFound (Some e))
    | None =>
        let '(updated, needsMigration) := maybeMigrate wp in
        if needsMigration then
          err ← call (Update updated);
          mret (reconcile.zero, err)
        else
          wp ← call (SchemeDefault wp);
          wp ← call (SetDefaults wp);
          secretSyncer ← call (NewSecretSyncer wp);
          secret ← call (SecretObject secretSyncer);
          deploySyncer ← call (NewDeploymentSyncer wp secret);
          serviceSyncer ← call (NewServiceSyncer wp);
          ingressSyncer ← call (NewIngressSyncer wp);
          let syncers := [secretSyncer; deploySyncer; serviceSyncer; ingressSyncer] in
          syncers ← (if wantsCodePVC wp
                     then s ← call (NewCodePVCSyncer wp); mret (syncers ++ [s])
                     else mret syncers);
          syncers ← (if wantsMediaPVC wp
                     then s ← call (NewMediaPVCSyncer wp); mret (syncers ++ [s])
                     else mret syncers);
          err ← sync syncers;
          match err with
          | Some e => mret (reconcile.zero, Some e)
          | None =>
              let oldStatus := Status wp in
              deployment ← call (DeploymentObject deploySyncer);
              let wp := set_Replicas (appsv1.Replicas (appsv1.Status deployment)) wp in
              errUp ← (if negb (Z.eqb (Replicas oldStatus) (Replicas (Status wp)))
                       then call (StatusUpdate wp)
                       else mret None);
              match errUp with
              | Some e => mret (reconcile.zero, Some e)
              | None =>
                  err ← cleanupCronJob wp;
                  match err with
                  | Some e => mret (reconcile.zero, Some e)
                  | None => mret (reconcile.zero, None)
                  end
              end
          end
    end.
End Controller.

(** ** Reading a trace *)

Definition calls (tr : list Event) : list Call := map called tr.

Definition isConstructor (c : Call) : bool :=
  match c with
  | NewSecretSyncer _ | NewDeploymentSyncer _ _ | NewServiceSyncer _
  | NewIngressSyncer _ | NewCodePVCSyncer _ | NewMediaPVCSyncer _ => true
  | _ => false
  end.

(** The constructor calls of a pass, in order. *)
Definition constructions (tr : list Event) : list Call :=
  List.filter isConstructor (calls tr).


(** The syncer a [syncer.Sync] call ran, and whether it answered nil. *)
Definition syncedBy (e : Event) : option syncer.Interface :=
  match called e with Sync s => Some s | _ => None end.

Definition syncOk (e : Event) : bool :=
  match e with
  | existT c x =>
      match c return resp c -> bool with
      | Sync _ => fun err => negb (notNil err)
      | _ => fun _ => true
      end x
  end.

(** The objects written: whole-resource updates, status updates, deletes. *)
Definition updatedBy (e : Event) : option Wordpress :=
  match called e with Update obj => Some obj | _ => None end.

Definition statusUpdatedBy (e : Event) : option Wordpress :=
  match called e with StatusUpdate obj => Some obj | _ => None end.

Definition deletedBy (e : Event) : option batchv1beta1.CronJob :=
  match called e with Delete obj => Some obj | _ => None end.

(** The resource as [wp.SetDefaults()] left it, the secret handed to the
    workload syncer, and the workload object read after the pipeline. *)
Definition defaultedBy (e : Event) : option Wordpress :=
  match e with
  | existT c x =>
      match c return resp c -> option Wordpress with
      | SetDefaults _ => fun wp => Some wp
      | _ => fun _ => None
      end x
  end.


Definition deploymentBy (e : Event) : option appsv1.Deployment :=
  match e with
  | existT c x =>
      match c return resp c -> option appsv1.Deployment with
      | DeploymentObject _ => fun d => Some d
      | _ => fun _ => None
      end x
  end.

Definition synced (tr : list Event) : list syncer.Interface := omap syncedBy tr.
Definition pipelineOk (tr : list Event) : bool := forallb syncOk tr.
Definition updates (tr : list Event) : list Wordpress := omap updatedBy tr.
Definition statusUpdates (tr : list Event) : list Wordpress := omap statusUpdatedBy tr.
Definition deletes (tr : list Event) : list batchv1beta1.CronJob := omap deletedBy tr.
Definition defaulted (tr : list Event) : option Wordpress := head (omap defaultedBy tr).
Definition observed (tr : list Event) : option appsv1.Deployment := head (omap deploymentBy tr).

(** ** The ownership test as the specification words it

    "its ownership reference names this resource as controller": the
    reference is flagged as controller and designates the resource, by
    kind, name and UID. *)
Definition namesAsController (wp : Wordpress) (ref : metav1.OwnerReference) : bool :=
  match metav1.Controller ref with Some true => true | _ => false end
  && (String.eqb (metav1.Kind ref) "Wordpress" || String.eqb (metav1.Kind ref) "wordpress")
  && String.eqb (metav1.Name ref) (Name wp)
  && String.eqb (metav1.UID ref) (UID wp).

Definition controlledBy (cj : batchv1beta1.CronJob) (wp : Wordpress) : bool :=
  existsb (namesAsController wp) (batchv1beta1.OwnerReferences cj).

(** What [isOwnedBy] looks at in one reference. *)
Definition namesByKindAndName (wp : Wordpress) (ref : metav1.OwnerReference) : Prop :=
  (metav1.Kind ref = "Wordpress" ∨ metav1.Kind ref = "wordpress")
  ∧ metav1.Name ref = Name wp.

#[global] Instance namesByKindAndName_dec (wp : Wordpress) (ref : metav1.OwnerReference) :
  Decision (namesByKindAndName wp ref).
Proof. unfold namesByKindAndName. apply _. Defined.

(** The route the migration synthesizes for a deprecated domain. *)
Definition rootRoute (d : string) : RouteSpec := {| Domain := d; Path := "/" |}.

(** ** A small cluster to run passes against

    One site at most, one legacy cron job at most, a workload reporting a
    replica count; every write succeeds. *)
Module Sample.
Record Cluster := {
    site : option Wordpress;
    liveReplicas : Z;
    cron : option batchv1beta1.CronJob;
    nextRef : nat
  }.

Definition notFound : error :=
    {| errors.Reason := errors.StatusReasonNotFound; errors.Message := "not found" |}.

Definition unavailable : error :=
    {| errors.Reason := errors.StatusReasonServiceUnavailable;
       errors.Message := "connection refused" |}.

Definition blank : Wordpress :=
    {| Name := ""; Namespace := ""; UID := "";
       Spec := {| Routes := []; Domains := [];
                  CodeVolumeSpec_ := None; MediaVolumeSpec_ := None |};
       Status := {| Replicas := 0 |} |}.

Definition blankCron : batchv1beta1.CronJob :=
    {| batchv1beta1.Name := ""; batchv1beta1.Namespace := "";
       batchv1beta1.OwnerReferences := [] |}.

Definition newRef (w : Cluster) : syncer.Interface * Cluster :=
    (syncer.Ref (nextRef w),
     {| site := site w; liveReplicas := liveReplicas w; cron := cron w;
        nextRef := S (nextRef w) |}).

Definition handler : Handler Cluster := fun c =>
    match c return Cluster -> resp c * Cluster with
    | Get _ => fun w =>
        match site w with
        | Some wp => ((wp, None), w)
        | None => ((blank, Some notFound), w)
        end
    | Update obj => fun w =>
        (None, {| site := Some obj; liveReplicas := liveReplicas w; cron := cron w;
                  nextRef := nextRef w |})
    | StatusUpdate obj => fun w =>
        (None,
         {| site := (fun wp => set_Replicas (Replicas (Status obj)) wp) <$> site w;
            liveReplicas := liveReplicas w; cron := cron w; nextRef := nextRef w |})
    | SchemeDefault obj => fun w => (obj, w)
    | SetDefaults wp => fun w => (wp, w)
    | NewSecretSyncer _ | NewDeploymentSyncer _ _ | NewServiceSyncer _
    | NewIngressSyncer _ | NewCodePVCSyncer _ | NewMediaPVCSyncer _ => newRef
    | SecretObject _ => fun w =>
        ({| corev1.Name := "site-wp"; corev1.Namespace := "default" |}, w)
    | DeploymentObject _ => fun w =>
        ({| appsv1.Name := "site"; appsv1.Namespace := "default";
            appsv1.Status := {| appsv1.Replicas := liveReplicas w |} |}, w)
    | Sync _ => fun w => (None, w)
    | GetCronJob _ => fun w =>
        match cron w with
        | Some cj => ((cj, None), w)
        | None => ((blankCron, Some notFound), w)
        end
    | Delete _ => fun w =>
        (None, {| site := site w; liveReplicas := liveReplicas w; cron := None;
                  nextRef := nextRef w |})
    end.

  (** The same cluster with an unreachable store: every read fails. *)
Definition down : Handler Cluster := fun c =>
    match c return Cluster -> resp c * Cluster with
    | Get _ => fun w => ((blank, Some unavailable), w)
    | GetCronJob _ => fun w => ((blankCron, Some unavailable), w)
    | c' => handler c'
    end.

(** The same cluster where the syncer of reference 1 fails. *)
Definition flaky : Handler Cluster := fun c =>
    match c return Cluster -> resp c * Cluster with
    | Sync (syncer.Ref 1) => fun w => (Some unavailable, w)
    | c' => handler c'
    end.

Definition ComponentName (wp : Wordpress) (c : wordpress.component) : string :=
    match c with
    | wordpress.WordpressCron => String.append (Name wp) "-wp-cron"
    end.

Definition request : reconcile.Request :=
    {| reconcile.NamespacedName := {| types.Namespace := "default"; types.Name := "site" |} |}.

  (** A site written for the deprecated schema: two domains, no routes. *)
Definition legacySite : Wordpress :=
    {| Name := "site"; Namespace := "default"; UID := "uid-site";
       Spec := {| Routes := []; Domains := ["example.com"; "www.example.com"];
                  CodeVolumeSpec_ := None; MediaVolumeSpec_ := None |};
       Status := {| Replicas := 0 |} |}.

  (** A site of the current schema that still carries a deprecated domain,
      with a storage claim for its code and none for its media. *)
Definition routedSite : Wordpress :=
    {| Name := "site"; Namespace := "default"; UID := "uid-site";
       Spec := {| Routes := [ {| Domain := "example.com"; Path := "/" |} ];
                  Domains := ["old.example.com"];
                  CodeVolumeSpec_ :=
                    Some {| CodePersistentVolumeClaim :=
                              Some {| corev1.VolumeName := "code" |} |};
                  MediaVolumeSpec_ := Some {| MediaPersistentVolumeClaim := None |} |};
       Status := {| Replicas := 1 |} |}.

  (** A cron job under the legacy name whose controller is a workload, and
      which lists the site as a plain (non-controller) owner. *)
Definition borrowedCron : batchv1beta1.CronJob :=
    {| batchv1beta1.Name := "site-wp-cron"; batchv1beta1.Namespace := "default";
       batchv1beta1.OwnerReferences :=
         [ {| metav1.APIVersion := "apps/v1"; metav1.Kind := "Deployment";
              metav1.Name := "site"; metav1.UID := "uid-deploy";
              metav1.Controller := Some true |};
           {| metav1.APIVersion := "wordpress.presslabs.org/v1alpha1";
              metav1.Kind := "Wordpress";
              metav1.Name := "site"; metav1.UID := "uid-site";
              metav1.Controller := None |} ] |}.

  (** A cron job under the legacy name controlled by another Wordpress
      resource of the same name (an earlier incarnation, other UID). *)
Definition namesakeCron : batchv1beta1.CronJob :=
    {| batchv1beta1.Name := "site-wp-cron"; batchv1beta1.Namespace := "default";
       batchv1beta1.OwnerReferences :=
         [ {| metav1.APIVersion := "wordpress.presslabs.org/v1alpha1";
              metav1.Kind := "Wordpress";
              metav1.Name := "site"; metav1.UID := "uid-earlier-site";
              metav1.Controller := Some true |} ] |}.

  (** A cron job under the legacy name owned by a workload only. *)
Definition foreignCron : batchv1beta1.CronJob :=
    {| batchv1beta1.Name := "site-wp-cron"; batchv1beta1.Namespace := "default";
       batchv1beta1.OwnerReferences :=
         [ {| metav1.APIVersion := "apps/v1"; metav1.Kind := "Deployment";
              metav1.Name := "site"; metav1.UID := "uid-deploy";
              metav1.Controller := Some true |} ] |}.

Definition cluster (wp : option Wordpress) (n : Z) (cj : option batchv1beta1.CronJob)
    : Cluster :=
    {| site := wp; liveReplicas := n; cron := cj; nextRef := 0 |}.

  (** Passes over that cluster: a site of the deprecated schema; a site
      with routes whose workload reports three replicas, next to a cron job
      it does not own; no site at all. *)
Definition legacyPass : (reconcile.Result * option error) * Cluster * list Event :=
    run handler (Reconcile ComponentName request) (cluster (Some legacySite) 0 None).

Definition routedPass : (reconcile.Result * option error) * Cluster * list Event :=
    run handler (Reconcile ComponentName request)
      (cluster (Some routedSite) 3 (Some foreignCron)).

Definition missingPass : (reconcile.Result * option error) * Cluster * list Event :=
    run handler (Reconcile ComponentName request) (cluster None 0 None).

  (** The reaper alone, meeting each of the three cron jobs. *)
Definition reap (cj : batchv1beta1.CronJob) : option error * Cluster * list Event :=
    run handler (cleanupCronJob ComponentName routedSite)
      (cluster (Some routedSite) 1 (Some cj)).

Definition cronKey : types.NamespacedName :=
    {| types.Namespace := "default"; types.Name := "site-wp-cron" |}.
End Sample.

(** ** Reading more off a trace *)

(** Whether a status update answered nil, and the calls of the reaper. *)
Definition statusOk (e : Event) : bool :=
  match e with
  | existT c x =>
      match c return resp c -> bool with
      | StatusUpdate _ => fun err => negb (notNil err)
      | _ => fun _ => true
      end x
  end.

Definition isCron (c : Call) : bool :=
  match c with GetCronJob _ | Delete _ => true | _ => false end.

Definition statusWritesOk (tr : list Event) : bool := forallb statusOk tr.
Definition cronCalls (tr : list Event) : list Call := List.filter isCron (calls tr).

(** The error a call answered, for the calls that answer one, and what a
    pass makes of it: a NotFound on a fetch is forgiven. *)
Definition errorBy (e : Event) : option error :=
  match e with
  | existT c x =>
      match c return resp c -> option error with
      | Get _ => fun a => a.2
      | GetCronJob _ => fun a => a.2
      | Update _ | StatusUpdate _ | Sync _ | Delete _ => fun a => a
      | _ => fun _ => None
      end x
  end.

Definition returnedBy (e : Event) : option error :=
  match called e with
  | Get _ | GetCronJob _ => ignoreNotFound (errorBy e)
  | _ => errorBy e
  end.

Definition isSync (c : Call) : bool :=
  match c with Sync _ => true | _ => false end.

(** ** Registration and bootstrap

    [Add], [newReconciler] and [add] of the controller file, and [main] of
    [cmd/wordpress-operator/main.go].  They talk to the manager, the
    controller under construction, the flag set and the logger; as for a
    pass, each such call is a node of a program and a handler answers it. *)
Module boot.

(** The object types watched: [&wordpressv1alpha1.Wordpress{}],
    [&appsv1.Deployment{}], [&corev1.PersistentVolumeClaim{}],
    [&corev1.Service{}], [&corev1.Secret{}], [&netv1.Ingress{}]. *)
Inductive ObjectType :=
| WordpressType
| DeploymentType
| PersistentVolumeClaimType
| ServiceType
| SecretType
| IngressType.

(** [handler.EnqueueRequestForObject] and [handler.EnqueueRequestForOwner]. *)
Inductive EventHandler :=
| EnqueueRequestForObject
| EnqueueRequestForOwner (IsController : bool) (OwnerType : ObjectType).

(** References to the collaborators' objects. *)
Inductive Manager := ManagerRef (id : nat).
Inductive Controller := ControllerRef (id : nat).
Inductive Config := ConfigRef (id : nat).
Inductive Client := ClientRef (id : nat).
Inductive Scheme := SchemeRef (id : nat).
Inductive EventRecorder := RecorderRef (id : nat).
Inductive Logger := LoggerRef (id : nat).
Inductive Context := ContextRef (id : nat).

(** [healthz.Ping], the only checker [main] installs. *)
Inductive Checker := Ping.

(** [ReconcileWordpress], lines 95-99. *)
Record ReconcileWordpress := {
  client : Client;
  scheme : Scheme;
  recorder : EventRecorder
}.

(** The package-level variables of [pkg/cmd/options] that [main] reads. *)
Record Flags := {
  LeaderElection : bool;
  LeaderElectionID : string;
  LeaderElectionNamespace : string;
  MetricsBindAddress : string;
  HealthProbeBindAddress : string
}.

(** [manager.Options], the fields [main] sets. *)
Record Options := {
  OptLeaderElection : bool;
  OptLeaderElectionID : string;
  OptLeaderElectionNamespace : string;
  OptLeaderElectionResourceLock : string;
  OptMetricsBindAddress : string;
  OptHealthProbeBindAddress : string
}.

Inductive Call :=
| GetClient (mgr : Manager)                                 (* mgr.GetClient() *)
| GetScheme (mgr : Manager)                                 (* mgr.GetScheme() *)
| GetEventRecorderFor (mgr : Manager) (name : string)       (* mgr.GetEventRecorderFor(name) *)
| ControllerNew (name : string) (mgr : Manager) (r : ReconcileWordpress)
                                                            (* controller.New(name, mgr, Options{Reconciler: r}) *)
| Watch (c : Controller) (src : ObjectType) (hdl : EventHandler)
                                                            (* c.Watch(&source.Kind{Type: src}, hdl) *)
| AddToFlagSet                                              (* options.AddToFlagSet(flag.CommandLine) *)
| FlagParse                                                 (* flag.Parse() *)
| KlogrNew                                                  (* klogr.New() *)
| SetLogger (l : Logger)                                    (* logf.SetLogger(l) *)
| LogInfo (msg : string)                                    (* setupLog.Info(msg) *)
| LogError (err : error) (msg : string)                     (* setupLog.Error(err, msg) *)
| GetConfig                                                 (* config.GetConfig() *)
| ReadFlags                                                 (* options.LeaderElection, ... *)
| ManagerNew (cfg : Config) (opts : Options)                (* manager.New(cfg, opts) *)
| AddToScheme (s : Scheme)                                  (* apis.AddToScheme(s) *)
| AddToManager (mgr : Manager)                              (* controller.AddToManager(mgr) *)
| AddHealthzCheck (mgr : Manager) (name : string) (check : Checker)
| AddReadyzCheck (mgr : Manager) (name : string) (check : Checker)
| SetupSignalHandler                                        (* signals.SetupSignalHandler() *)
| Start (mgr : Manager) (ctx : Context).                    (* mgr.Start(ctx) *)

Definition resp (c : Call) : Type :=
  match c with
  | GetClient _ => Client
  | GetScheme _ => Scheme
  | GetEventRecorderFor _ _ => EventRecorder
  | ControllerNew _ _ _ => (Controller * option error)%type
  | Watch _ _ _ | AddToScheme _ | AddToManager _
  | AddHealthzCheck _ _ _ | AddReadyzCheck _ _ _ | Start _ _ => option error
  | AddToFlagSet | FlagParse | SetLogger _ | LogInfo _ | LogError _ _ => unit
  | KlogrNew => Logger
  | GetConfig => (Config * option error)%type
  | ReadFlags => Flags
  | ManagerNew _ _ => (Manager * option error)%type
  | SetupSignalHandler => Context
  end.

Inductive Prog (R : Type) : Type :=
| Ret (r : R)
| Vis (c : Call) (k : resp c -> Prog R).

Arguments Ret {R} r.
Arguments Vis {R} c k.

Fixpoint bind {A B : Type} (m : Prog A) (f : A -> Prog B) : Prog B :=
  match m with
  | Ret a => f a
  | Vis c k => Vis c (fun x => bind (k x) f)
  end.

Definition call (c : Call) : Prog (resp c) := Vis c Ret.

#[global] Instance Prog_ret : MRet Prog := @Ret.
#[global] Instance Prog_bind : MBind Prog := fun A B f m => bind m f.

Definition Event : Type := { c : Call & resp c }.
Definition ev (c : Call) (x : resp c) : Event := existT c x.
Definition called (e : Event) : Call := projT1 e.
Definition calls (tr : list Event) : list Call := map called tr.

Definition Handler (W : Type) : Type := forall c : Call, W -> resp c * W.

Fixpoint run {W R : Type} (h : Handler W) (p : Prog R) (w : W) : R * W * list Event :=
  match p with
  | Ret r => (r, w, [])
  | Vis c k =>
      let '(x, w1) := h c w in
      let '(r, w2, tr) := run h (k x) w1 in
      (r, w2, ev c x :: tr)
  end.

Definition result {W R : Type} (o : R * W * list Event) : R := o.1.1.
Definition trace {W R : Type} (o : R * W * list Event) : list Event := o.2.

Definition holds {W R : Type} (h : Handler W) (p : Prog R) (w : W)
    (Q : R -> list Event -> Prop) : Prop :=
  Q (result (run h p w)) (trace (run h p w)).

(** [controllerName], line 44. *)
Definition controllerName : string := "wordpress-controller".

(** [genericErrorExitCode], main.go line 36. *)
Definition genericErrorExitCode : Z := 1.

(** [newReconciler], lines 53-55. *)
Definition newReconciler (mgr : Manager) : Prog ReconcileWordpress :=
  c ← call (GetClient mgr);
  s ← call (GetScheme mgr);
  r ← call (GetEventRecorderFor mgr controllerName);
  mret {| client := c; scheme := s; recorder := r |}.

(** The loop of [add] over [subresources], lines 79-87. *)
Fixpoint watchOwned (c : Controller) (subresources : list ObjectType)
  : Prog (option error) :=
  match subresources with
  | [] => mret None
  | subresource :: rest =>
      err ← call (Watch c subresource
                    (EnqueueRequestForOwner true WordpressType));
      match err with
      | Some e => mret (Some e)
      | None => watchOwned c rest
      end
  end.

(** [add], lines 58-90. *)
Definition add (mgr : Manager) (r : ReconcileWordpress) : Prog (option error) :=
  '(c, err) ← call (ControllerNew controllerName mgr r);
  match err with
  | Some e => mret (Some e)
  | None =>
      err ← call (Watch c WordpressType EnqueueRequestForObject);
      match err with
      | Some e => mret (Some e)
      | None =>
          let subresources :=
            [DeploymentType; PersistentVolumeClaimType; ServiceType;
             SecretType; IngressType] in
          watchOwned c subresources
      end
  end.

(** [Add], lines 48-50. *)
Definition Add (mgr : Manager) : Prog (option error) :=
  r ← newReconciler mgr;
  add mgr r.

(** [main], main.go lines 42-98.  [os.Exit(n)] ends the program with [n];
    falling off the end of [main] ends it with 0. *)
Definition main : Prog Z :=
  _ ← call AddToFlagSet;
  _ ← call FlagParse;
  l ← call KlogrNew;
  _ ← call (SetLogger l);
  _ ← call (LogInfo "Starting wordpress-operator...");
  '(cfg, err) ← call GetConfig;
  match err with
  | Some e =>
      _ ← call (LogError e "unable to get configuration");
      mret genericErrorExitCode
  | None =>
  flags ← call ReadFlags;
  '(mgr, err) ← call (ManagerNew cfg
      {| OptLeaderElection := LeaderElection flags;
         OptLeaderElectionID := LeaderElectionID flags;
         OptLeaderElectionNamespace := LeaderElectionNamespace flags;
         OptLeaderElectionResourceLock := "leases";
         OptMetricsBindAddress := MetricsBindAddress flags;
         OptHealthProbeBindAddress := HealthProbeBindAddress flags |});
  match err with
  | Some e =>
      _ ← call (LogError e "unable to create a new manager");
      mret genericErrorExitCode
  | None =>
  s ← call (GetScheme mgr);
  err ← call (AddToScheme s);
  match err with
  | Some e =>
      _ ← call (LogError e "unable to register types to scheme");
      mret genericErrorExitCode
  | None =>
  err ← call (AddToManager mgr);
  match err with
  | Some e =>
      _ ← call (LogError e "unable to setup controllers");
      mret genericErrorExitCode
  | None =>
  err ← call (AddHealthzCheck mgr "healthz" Ping);
  match err with
  | Some e =>
      _ ← call (LogError e "unable to set up health check");
      mret 1%Z
  | None =>
  err ← call (AddReadyzCheck mgr "readyz" Ping);
  match err with
  | Some e =>
      _ ← call (LogError e "unable to set up ready check");
      mret 1%Z
  | None =>
  ctx ← call SetupSignalHandler;
  err ← call (Start mgr ctx);
  match err with
  | Some e =>
      _ ← call (LogError e "unable to start the manager");
      mret genericErrorExitCode
  | None => mret 0%Z
  end end end end end end end.

(** *** Reading a bootstrap trace *)

(** The error a call answered, for the calls that answer one. *)
Definition errorOf (e : Event) : option error :=
  match e with
  | existT c x =>
      match c return resp c -> option error with
      | ControllerNew _ _ _ => fun a => a.2
      | GetConfig => fun a => a.2
      | ManagerNew _ _ => fun a => a.2
      | Watch _ _ _ | AddToScheme _ | AddToManager _
      | AddHealthzCheck _ _ _ | AddReadyzCheck _ _ _ | Start _ _ => fun a => a
      | _ => fun _ => None
      end x
  end.

Definition controllerBy (e : Event) : option Controller :=
  match e with
  | existT c x =>
      match c return resp c -> option Controller with
      | ControllerNew _ _ _ => fun a => Some a.1
      | _ => fun _ => None
      end x
  end.

Definition reconcilerBy (e : Event) : option ReconcileWordpress :=
  match called e with ControllerNew _ _ r => Some r | _ => None end.

Definition loggedBy (e : Event) : option (error * string) :=
  match called e with LogError err msg => Some (err, msg) | _ => None end.


Definition optionsBy (e : Event) : option Options :=
  match called e with ManagerNew _ opts => Some opts | _ => None end.

Definition isWatch (c : Call) : bool :=
  match c with Watch _ _ _ => true | _ => false end.

Definition failures (tr : list Event) : list error := omap errorOf tr.
Definition logged (tr : list Event) : list (error * string) := omap loggedBy tr.
Definition watches (tr : list Event) : list Call := List.filter isWatch (calls tr).

(** The calls [add] makes when nothing fails, given the controller
    [controller.New] handed back. *)
Definition registration (mgr : Manager) (r : ReconcileWordpress) (c : Controller)
  : list Call :=
  [ControllerNew controllerName mgr r;
   Watch c WordpressType EnqueueRequestForObject;
   Watch c DeploymentType (EnqueueRequestForOwner true WordpressType);
   Watch c PersistentVolumeClaimType (EnqueueRequestForOwner true WordpressType);
   Watch c ServiceType (EnqueueRequestForOwner true WordpressType);
   Watch c SecretType (EnqueueRequestForOwner true WordpressType);
   Watch c IngressType (EnqueueRequestForOwner true WordpressType)].

End boot.

(** ** More of the sample cluster *)
Module Drill.

(** The sample cluster with a store that refuses status writes. *)
Definition frozenStatus : Handler Sample.Cluster := fun c =>
  match c return Sample.Cluster -> resp c * Sample.Cluster with
  | StatusUpdate _ => fun w => (Some Sample.unavailable, w)
  | c' => Sample.handler c'
  end.

(** Passes over it: the workload syncer fails; the status write fails; the
    site fetched is the outcome of an earlier migration. *)
Definition failedPipelinePass
  : (reconcile.Result * option error) * Sample.Cluster * list Event :=
  run Sample.flaky (Reconcile Sample.ComponentName Sample.request)
    (Sample.cluster (Some Sample.routedSite) 3 None).

Definition frozenPass
  : (reconcile.Result * option error) * Sample.Cluster * list Event :=
  run frozenStatus (Reconcile Sample.ComponentName Sample.request)
    (Sample.cluster (Some Sample.routedSite) 3 None).

Definition migratedPass
  : (reconcile.Result * option error) * Sample.Cluster * list Event :=
  run Sample.handler (Reconcile Sample.ComponentName Sample.request)
    (Sample.cluster (Some (maybeMigrate Sample.legacySite).1) 0 None).

(** The reaper when the cron job is gone. *)
Definition reapNothing : option error * Sample.Cluster * list Event :=
  run Sample.handler (cleanupCronJob Sample.ComponentName Sample.routedSite)
    (Sample.cluster (Some Sample.routedSite) 1 None).

(** The references of [Sample.namesakeCron] with another UID, another API
    version and no controller flag. *)
Definition plainRefs : list metav1.OwnerReference :=
  [ {| metav1.APIVersion := "v1"; metav1.Kind := "Wordpress";
       metav1.Name := "site"; metav1.UID := "uid-site";
       metav1.Controller := None |} ].

(** Bootstrap collaborators that never fail; the state counts the
    references handed out. *)
Definition quiet : boot.Handler nat := fun c =>
  match c return nat -> boot.resp c * nat with
  | boot.GetClient _ => fun n => (boot.ClientRef n, S n)
  | boot.GetScheme _ => fun n => (boot.SchemeRef n, S n)
  | boot.GetEventRecorderFor _ _ => fun n => (boot.RecorderRef n, S n)
  | boot.ControllerNew _ _ _ => fun n => ((boot.ControllerRef n, None), S n)
  | boot.Watch _ _ _ | boot.AddToScheme _ | boot.AddToManager _
  | boot.AddHealthzCheck _ _ _ | boot.AddReadyzCheck _ _ _
  | boot.Start _ _ => fun n => (None, n)
  | boot.AddToFlagSet | boot.FlagParse | boot.SetLogger _
  | boot.LogInfo _ | boot.LogError _ _ => fun n => (tt, n)
  | boot.KlogrNew => fun n => (boot.LoggerRef n, S n)
  | boot.GetConfig => fun n => ((boot.ConfigRef n, None), S n)
  | boot.ReadFlags => fun n =>
      ({| boot.LeaderElection := true;
          boot.LeaderElectionID := "wordpress-operator";
          boot.LeaderElectionNamespace := "default";
          boot.MetricsBindAddress := ":8080";
          boot.HealthProbeBindAddress := ":8081" |}, n)
  | boot.ManagerNew _ _ => fun n => ((boot.ManagerRef n, None), S n)
  | boot.SetupSignalHandler => fun n => (boot.ContextRef n, S n)
  end.

(** The same where the third watch is refused. *)
Definition refusing : boot.Handler nat := fun c =>
  match c return nat -> boot.resp c * nat with
  | boot.Watch _ boot.PersistentVolumeClaimType _ => fun n => (Some Sample.unavailable, n)
  | c' => quiet c'
  end.


End Drill.

(** * Proofs *)

(** ** Migration *)

Lemma set_Routes_same (x : Wordpress) : set_Routes (Routes (Spec x)) x = x.
Proof. by destruct x as [? ? ? [? ? ? ?] ?]. Qed.

Lemma migrateStep_loop (ds : list string) (out : Wordpress) (b : bool) :
  foldl migrateStep (out, b) ds
  = (set_Routes (Routes (Spec out) ++ map rootRoute ds) out,
     match ds with [] => b | _ => true end).
Proof.
  revert out b. induction ds as [|d ds IH]; intros out b.
  - cbn. by rewrite app_nil_r, set_Routes_same.
  - cbn [foldl]. unfold migrateStep at 2. cbn [fst]. rewrite IH. cbn.
    rewrite <- app_assoc. f_equal. by destruct ds.
Qed.

Lemma maybeMigrate_no_routes (wp : Wordpress) :
  Routes (Spec wp) = [] →
  maybeMigrate wp
  = (set_Domains [] (set_Routes (map rootRoute (Domains (Spec wp))) wp),
     match Domains (Spec wp) with [] => false | _ => true end).
Proof.
  intros H. unfold maybeMigrate. rewrite H. cbn [length Nat.eqb].
  rewrite migrateStep_loop, H. reflexivity.
Qed.

Lemma maybeMigrate_routes (wp : Wordpress) :
  Routes (Spec wp) ≠ [] → maybeMigrate wp = (set_Domains [] wp, false).
Proof.
  intros H. unfold maybeMigrate.
  destruct (Routes (Spec wp)) as [|r rs]; [done|]. reflexivity.
Qed.

(** C1.  A specification with no routes and at least one deprecated domain
    is migrated: the flag is raised, the routes of the result are the
    domains in order, one route each, with path "/" and the domain as
    hostname, the deprecated field of the result is empty, and migrating
    the result again leaves the flag down. *)
Theorem maybeMigrate_domains_to_routes (wp : Wordpress) :
  Routes (Spec wp) = [] →
  Domains (Spec wp) ≠ [] →
  (maybeMigrate wp).2 = true
  ∧ Routes (Spec (maybeMigrate wp).1) = map rootRoute (Domains (Spec wp))
  ∧ Domains (Spec (maybeMigrate wp).1) = []
  ∧ (maybeMigrate (maybeMigrate wp).1).2 = false.
Proof.
  intros Hr Hd. rewrite maybeMigrate_no_routes by done. cbn [fst snd].
  split_and!.
  - by destruct (Domains (Spec wp)).
  - reflexivity.
  - reflexivity.
  - rewrite maybeMigrate_routes; [done|].
    cbn. by destruct (Domains (Spec wp)).
Qed.

Lemma maybeMigrate_domains_to_routes_witness :
  (maybeMigrate Sample.legacySite).2 = true
  ∧ Routes (Spec (maybeMigrate Sample.legacySite).1)
    = map rootRoute (Domains (Spec Sample.legacySite))
  ∧ Domains (Spec (maybeMigrate Sample.legacySite).1) = []
  ∧ (maybeMigrate (maybeMigrate Sample.legacySite).1).2 = false.
Proof.
  apply (maybeMigrate_domains_to_routes Sample.legacySite); [reflexivity|].
  vm_compute. discriminate.
Defined.

(** ** Migration on the heap *)

Lemma DeepCopy_fresh (p : loc) (h : Heap) (wp : Wordpress) :
  h !! p = Some wp →
  DeepCopy p h = Some (fresh (dom h), <[fresh (dom h) := wp]> h)
  ∧ h !! fresh (dom h) = None.
Proof.
  intros Hp. unfold DeepCopy. rewrite Hp. split; [done|].
  apply not_elem_of_dom, is_fresh.
Qed.

(** The loop writes through [out] only, and computes there what
    [migrateStep] computes on values. *)
Lemma migrateIter_loop (out : loc) (h0 : Heap) (m : nat) :
  ∀ (k : nat) (o : Wordpress) (b : bool),
    (k + m ≤ length (Domains (Spec o)))%nat →
    foldl (migrateIter out) (Some (<[out := o]> h0, b)) (seq k m)
    = Some (<[out := (foldl migrateStep (o, b) (take m (drop k (Domains (Spec o))))).1]> h0,
            (foldl migrateStep (o, b) (take m (drop k (Domains (Spec o))))).2).
Proof.
  induction m as [|m IH]; intros k o b Hk.
  - reflexivity.
  - destruct (lookup_lt_is_Some_2 (Domains (Spec o)) k) as [d Hd]; [lia|].
    cbn [seq foldl]. unfold migrateIter at 2. cbn.
    rewrite lookup_insert_eq. cbn. rewrite Hd. cbn.
    rewrite insert_insert_eq.
    rewrite IH by (cbn; lia). cbn [Spec Domains set_Routes].
    rewrite (drop_S _ _ _ Hd). cbn [take foldl].
    reflexivity.
Qed.

Lemma maybeMigrate_mem_spec (h : Heap) (p : loc) (wp : Wordpress) :
  h !! p = Some wp →
  maybeMigrate_mem p h
  = Some (fresh (dom h), (maybeMigrate wp).2, <[fresh (dom h) := (maybeMigrate wp).1]> h).
Proof.
  intros Hp. destruct (DeepCopy_fresh p h wp Hp) as [Hc _].
  unfold maybeMigrate_mem, maybeMigrate. rewrite Hc. cbn.
  rewrite lookup_insert_eq. cbn.
  destruct (length (Routes (Spec wp)) =? 0)%nat.
  - rewrite migrateIter_loop by lia.
    rewrite drop_0, firstn_all.
    destruct (foldl migrateStep (wp, false) (Domains (Spec wp))) as [o b].
    cbn. rewrite lookup_insert_eq. cbn. by rewrite insert_insert_eq.
  - cbn. rewrite lookup_insert_eq. cbn. by rewrite insert_insert_eq.
Qed.

(** C8.  Called on the address of a resource, [maybeMigrate] returns the
    address of a new object, distinct from its input; after the call the
    input holds what it held before, as does every object other than the
    new one; the new object is the migrated copy. *)
Theorem maybeMigrate_leaves_input (h : Heap) (p : loc) (wp : Wordpress) :
  h !! p = Some wp →
  ∃ (out : loc) (changed : bool) (h' : Heap),
    maybeMigrate_mem p h = Some (out, changed, h')
    ∧ out ≠ p
    ∧ h' !! p = Some wp
    ∧ (∀ p' : loc, p' ≠ out → h' !! p' = h !! p')
    ∧ h' !! out = Some (maybeMigrate wp).1
    ∧ changed = (maybeMigrate wp).2.
Proof.
  intros Hp. destruct (DeepCopy_fresh p h wp Hp) as [_ Hq].
  assert (Hne : fresh (dom h) ≠ p) by congruence.
  eexists _, _, _. split; [by apply maybeMigrate_mem_spec|].
  split_and!; [done| |intros p' ?| |done].
  - by rewrite lookup_insert_ne.
  - by rewrite lookup_insert_ne.
  - by rewrite lookup_insert_eq.
Qed.

Lemma maybeMigrate_leaves_input_witness :
  ∃ (out : loc) (changed : bool) (h' : Heap),
    maybeMigrate_mem 1%positive {[ 1%positive := Sample.legacySite ]}
    = Some (out, changed, h')
    ∧ out ≠ 1%positive
    ∧ h' !! 1%positive = Some Sample.legacySite
    ∧ (∀ p' : loc, p' ≠ out →
         h' !! p' = ({[ 1%positive := Sample.legacySite ]} : Heap) !! p')
    ∧ h' !! out = Some (maybeMigrate Sample.legacySite).1
    ∧ changed = (maybeMigrate Sample.legacySite).2.
Proof.
  apply (maybeMigrate_leaves_input {[ 1%positive := Sample.legacySite ]} 1%positive
           Sample.legacySite).
  vm_compute. reflexivity.
Defined.

(** ** Programs and their runs *)

Lemma run_bind {W A B : Type} (h : Handler W) (m : Prog A) (f : A → Prog B) (w : W) :
  run h (bind m f) w
  = let '(a, w1, t1) := run h m w in
    let '(b, w2, t2) := run h (f a) w1 in
    (b, w2, t1 ++ t2).
Proof.
  revert w. induction m as [a|c k IH]; intros w; cbn.
  - by destruct (run h (f a) w) as [[b w2] t2].
  - destruct (h c w) as [x w1]. rewrite IH.
    destruct (run h (k x) w1) as [[a w2] t1].
    by destruct (run h (f a) w2) as [[b w3] t2].
Qed.

Lemma Leaves_run {W R : Type} (P : R → Prop) (p : Prog R) :
  Leaves P p → ∀ (h : Handler W) (w : W), P (result (run h p w)).
Proof.
  induction 1 as [r Hr|c k _ IH]; intros h w; cbn.
  - exact Hr.
  - destruct (h c w) as [x w1]. specialize (IH x h w1).
    by destruct (run h (k x) w1) as [[r w2] tr].
Qed.

Lemma Leaves_bind {A B : Type} (P : B → Prop) (m : Prog A) (f : A → Prog B) :
  Leaves (λ a, Leaves P (f a)) m → Leaves P (bind m f).
Proof.
  induction 1 as [a Ha|c k _ IH]; cbn; [exact Ha|].
  constructor. exact IH.
Qed.

Lemma Leaves_any {R : Type} (p : Prog R) : Leaves (λ _, True) p.
Proof. induction p; constructor; auto. Qed.

Lemma Leaves_mono {R : Type} (P Q : R → Prop) (p : Prog R) :
  (∀ r, P r → Q r) → Leaves P p → Leaves Q p.
Proof. intros HPQ. induction 1; constructor; auto. Qed.

Lemma holds_Ret {W R : Type} (h : Handler W) (r : R) (w : W)
    (Q : R → list Event → Prop) :
  Q r [] → holds h (Ret r) w Q.
Proof. done. Qed.

Lemma holds_Vis {W R : Type} (h : Handler W) (c : Call) (k : resp c → Prog R) (w : W)
    (Q : R → list Event → Prop) :
  (∀ (x : resp c) (w1 : W),
     h c w = (x, w1) → holds h (k x) w1 (λ r tr, Q r (ev c x :: tr))) →
  holds h (Vis c k) w Q.
Proof.
  intros H. unfold holds in *. cbn.
  destruct (h c w) as [x w1]. specialize (H x w1 eq_refl).
  by destruct (run h (k x) w1) as [[r w2] tr].
Qed.

Lemma holds_trace {W R : Type} (h : Handler W) (p : Prog R) (w : W)
    (Q : list Event → Prop) :
  holds h p w (λ _, Q) → Q (trace (run h p w)).
Proof. done. Qed.

(** ** The pipeline runner *)

(** C3.  The runner calls [syncer.Sync] on the syncers in order and makes no
    other call.  When it returns an error, the list splits around one
    syncer: those before it were run and answered nil, that one was run
    last and answered the very error returned, those after it were not
    run.  When it returns nil, every syncer was run, in order, and answered
    nil. *)
Theorem sync_fail_fast {W : Type} (h : Handler W) (w : W)
    (syncers : list syncer.Interface) :
  match result (run h (sync syncers) w) with
  | Some e =>
      ∃ (before : list syncer.Interface) (s : syncer.Interface)
        (after : list syncer.Interface),
        syncers = before ++ s :: after
        ∧ trace (run h (sync syncers) w)
          = map (λ x, ev (Sync x) None) before ++ [ev (Sync s) (Some e)]
  | None => trace (run h (sync syncers) w) = map (λ x, ev (Sync x) None) syncers
  end.
Proof.
  revert w. induction syncers as [|s syncers IH]; intros w; [reflexivity|].
  cbn. destruct (h (Sync s) w) as [[e|] w1] eqn:E; cbn.
  - by exists [], s, syncers.
  - specialize (IH w1). unfold result, trace in *.
    destruct (run h (sync syncers) w1) as [[[e|] w2] tr]; cbn in *.
    + destruct IH as (before & s' & after & -> & ->).
      by exists (s :: before), s', after.
    + by rewrite IH.
Qed.

(** The second syncer of three fails: the third is never run. *)
Example sync_second_of_three :
  calls (trace (run Sample.flaky (sync [syncer.Ref 0; syncer.Ref 1; syncer.Ref 2])
                  (Sample.cluster None 0 None)))
  = [Sync (syncer.Ref 0); Sync (syncer.Ref 1)]
  ∧ result (run Sample.flaky (sync [syncer.Ref 0; syncer.Ref 1; syncer.Ref 2])
              (Sample.cluster None 0 None))
    = Some Sample.unavailable.
Proof. by vm_compute. Qed.

(** ** The reconciliation pass *)

(** Walks a program whose leaves are to satisfy a predicate. *)
Ltac leaves :=
  repeat (cbn; unfold mbind, Prog_bind, mret, Prog_ret, call;
          match goal with
          | |- Leaves _ (Ret _) => constructor
          | |- _ = _ => reflexivity
          | |- Leaves _ (Vis _ _) => constructor; intros ?
          | |- Leaves _ (bind (sync _) _) =>
              apply Leaves_bind, (Leaves_mono (λ _, True)); [intros ? _|apply Leaves_any]
          | |- Leaves _ (bind _ _) => apply Leaves_bind
          | |- Leaves _ (if ?b then _ else _) => destruct b
          | |- Leaves _ (match ?x with _ => _ end) => destruct x
          | |- Leaves _ (let (_, _) := ?x in _) => destruct x
          end).

(** Runs a program one call at a time: at a call, take any answer and
    carry on with the continuation; at a branch, take both sides. *)
Ltac pass :=
  repeat (match goal with
          | |- holds ?h ?p ?w ?Q =>
              let p' := eval cbn -[ignoreNotFound] in p in
              change (holds h p' w Q)
          end;
          lazymatch goal with
          | |- holds _ (Ret _) _ _ => fail
          | |- holds _ (Vis _ _) _ _ =>
              let x := fresh "x" in
              apply holds_Vis; intros x ? ?; cbn in x
          | |- holds _ ?p _ _ =>
              match p with
              | context [ignoreNotFound ?e] => destruct (ignoreNotFound e) eqn:?
              | context [if ?b then _ else _] => destruct b eqn:?
              | context [match ?x with Some _ => _ | None => _ end] => destruct x
              | context [let (_, _) := ?x in _] => destruct x
              end
          end).

(** Turns a goal about the trace of a run into a [holds] goal. *)
Ltac on_trace :=
  match goal with
  | |- context [trace (run ?h ?p ?w)] =>
      pattern (trace (run h p w)); apply holds_trace
  end.

(** At the end of a run the trace is known: evaluate what is read off it. *)
Ltac leaf := apply holds_Ret; cbv beta; cbn.

Section Pass.
Variable ComponentName : Wordpress → wordpress.component → string.

Lemma Reconcile_Leaves (request : reconcile.Request) :
    Leaves (λ r, r.1 = reconcile.zero) (Reconcile ComponentName request).
  Proof. unfold Reconcile, cleanupCronJob. leaves. Qed.

(** C10.  Whatever the collaborators answer, the result a pass returns is
    [reconcile.Result{}]: no requeue flag, no requeue delay. *)
Theorem Reconcile_never_requeues {W : Type} (h : Handler W) (w : W)
    (request : reconcile.Request) :
  (result (run h (Reconcile ComponentName request) w)).1 = reconcile.zero.
Proof. apply (Leaves_run (λ r, r.1 = reconcile.zero)), Reconcile_Leaves. Qed.

(** C2.  When the fetch succeeds and migration raises its flag, the pass
    makes exactly two calls, the fetch and a whole-resource update carrying
    the migrated resource, and returns what the update returned: no
    defaulting, no syncer constructed or run, no status update, no cron-job
    lookup or delete. *)
Theorem Reconcile_migration_stops {W : Type} (h : Handler W) (w : W)
    (request : reconcile.Request) (wp : Wordpress) :
  (h (Get (reconcile.NamespacedName request)) w).1 = (wp, None) →
  (maybeMigrate wp).2 = true →
  ∃ err : option error,
    trace (run h (Reconcile ComponentName request) w)
    = [ev (Get (reconcile.NamespacedName request)) (wp, None);
       ev (Update (maybeMigrate wp).1) err]
    ∧ result (run h (Reconcile ComponentName request) w) = (reconcile.zero, err).
Proof.
  intros Hget Hm. unfold Reconcile.
  cbn. destruct (h (Get _) w) as [[wp' err] w1]. cbn in Hget.
  injection Hget as -> ->.
  destruct (maybeMigrate wp) as [updated needs]. cbn in Hm. subst needs.
  cbn. destruct (h (Update updated) w1) as [err w2]. cbn.
  by exists err.
Qed.

(** C6.  When the fetch returns an error, the pass makes no other call;
    it returns nil if the error is NotFound and the error itself
    otherwise. *)
Theorem Reconcile_fetch_error {W : Type} (h : Handler W) (w : W)
    (request : reconcile.Request) (wp : Wordpress) (e : error) :
  (h (Get (reconcile.NamespacedName request)) w).1 = (wp, Some e) →
  trace (run h (Reconcile ComponentName request) w)
  = [ev (Get (reconcile.NamespacedName request)) (wp, Some e)]
  ∧ (errors.IsNotFound (Some e) = true →
     result (run h (Reconcile ComponentName request) w) = (reconcile.zero, None))
  ∧ (errors.IsNotFound (Some e) = false →
     result (run h (Reconcile ComponentName request) w) = (reconcile.zero, Some e)).
Proof.
  intros Hget. unfold Reconcile.
  cbn. destruct (h (Get _) w) as [[wp' err] w1]. cbn in Hget.
  injection Hget as -> ->. cbn. unfold result, ignoreNotFound. cbn.
  split_and!; [done|by intros ->|by intros ->].
Qed.


(** C4.  In a pass that fetched the resource, needed no migration and whose
    syncers all answered nil, with [wp] the resource the pass holds (as
    fetched and defaulted) and [deployment] the workload object read after
    the pipeline: when the replica count recorded in [wp] equals the one
    the workload reports, the pass makes no status update; otherwise it
    makes exactly one, carrying [wp] with the reported count. *)
Theorem Reconcile_status_write {W : Type} (h : Handler W) (w : W)
    (request : reconcile.Request) (wp0 : Wordpress) :
  (h (Get (reconcile.NamespacedName request)) w).1 = (wp0, None) →
  (maybeMigrate wp0).2 = false →
  pipelineOk (trace (run h (Reconcile ComponentName request) w)) = true →
  ∃ (wp : Wordpress) (deployment : appsv1.Deployment),
    defaulted (trace (run h (Reconcile ComponentName request) w)) = Some wp
    ∧ observed (trace (run h (Reconcile ComponentName request) w)) = Some deployment
    ∧ statusUpdates (trace (run h (Reconcile ComponentName request) w))
      = if Z.eqb (Replicas (Status wp)) (appsv1.Replicas (appsv1.Status deployment))
        then []
        else [set_Replicas (appsv1.Replicas (appsv1.Status deployment)) wp].
Proof.
  intros Hget Hm. on_trace. unfold Reconcile, cleanupCronJob.
  apply holds_Vis. intros [wp' err] w1 Hx. rewrite Hx in Hget.
  injection Hget as -> ->. cbn [mbind Prog_bind bind].
  destruct (maybeMigrate wp0) as [updated needs]. cbn in Hm. subst needs.
  pass.
  all: leaf; intros Hok; try discriminate Hok.
  all: eexists _, _; (split; [reflexivity|]); (split; [reflexivity|]).
  all: repeat match goal with
         | H : negb _ = true |- _ => apply negb_true_iff in H
         | H : negb _ = false |- _ => apply negb_false_iff in H
         end.
  all: repeat match goal with
         | H : Z.eqb _ _ = _ |- _ => rewrite H; clear H
         end.
  all: reflexivity.
Qed.

(** C9.  When the fetched resource has routes, migration leaves its flag
    down whatever the deprecated field holds, and clears that field in the
    copy it returns; the pass then makes no whole-resource update, goes on
    with the resource as fetched (its next call defaults that very
    resource), and every status update it makes carries the specification
    of the defaulted original. *)
Theorem Reconcile_routes_present {W : Type} (h : Handler W) (w : W)
    (request : reconcile.Request) (wp0 : Wordpress) :
  (h (Get (reconcile.NamespacedName request)) w).1 = (wp0, None) →
  Routes (Spec wp0) ≠ [] →
  (maybeMigrate wp0).2 = false
  ∧ Domains (Spec (maybeMigrate wp0).1) = []
  ∧ updates (trace (run h (Reconcile ComponentName request) w)) = []
  ∧ calls (trace (run h (Reconcile ComponentName request) w)) !! 1%nat
    = Some (SchemeDefault wp0)
  ∧ ∃ wp : Wordpress,
      defaulted (trace (run h (Reconcile ComponentName request) w)) = Some wp
      ∧ Forall (λ obj, Spec obj = Spec wp)
          (statusUpdates (trace (run h (Reconcile ComponentName request) w))).
Proof.
  intros Hget Hr. rewrite (maybeMigrate_routes wp0 Hr). cbn [fst snd].
  do 2 (split; [reflexivity|]).
  on_trace. unfold Reconcile, cleanupCronJob.
  apply holds_Vis. intros [wp' err] w1 Hx. rewrite Hx in Hget.
  injection Hget as -> ->. cbn [mbind Prog_bind bind].
  rewrite (maybeMigrate_routes wp0 Hr).
  pass.
  all: leaf.
  all: do 2 (split; [reflexivity|]).
  all: eexists; split; [reflexivity|].
  all: repeat constructor.
Qed.

(** ** The reaper *)

Lemma isOwnedBy_unnamed (refs : list metav1.OwnerReference) (owner : Wordpress) :
  Forall (λ ref, ¬ namesByKindAndName owner ref) refs → isOwnedBy refs owner = false.
Proof.
  induction 1 as [|ref refs Hn _ IH]; [reflexivity|].
  cbn. rewrite IH.
  destruct (_ && _) eqn:E; [|reflexivity].
  exfalso. apply Hn. apply andb_true_iff in E as [E1 E2].
  apply orb_true_iff in E1. rewrite !String.eqb_eq in E1.
  apply String.eqb_eq in E2. by split.
Qed.

Lemma isOwnedBy_named (refs : list metav1.OwnerReference) (owner : Wordpress) :
  Exists (namesByKindAndName owner) refs → isOwnedBy refs owner = true.
Proof.
  induction 1 as [ref refs [Hk Hn]|ref refs _ IH]; cbn.
  - apply String.eqb_eq in Hn. rewrite Hn.
    rewrite <- !String.eqb_eq in Hk. apply orb_true_iff in Hk. by rewrite Hk.
  - rewrite IH. by destruct (_ && _).
Qed.

(** C5, amended.  When the cron job fetched under the legacy name has no
    owner reference of kind "Wordpress" or "wordpress" whose name is the
    name of the reconciled resource, the cleanup makes no call besides the
    fetch, so no delete, and returns nil. *)
Theorem cleanupCronJob_spares_unnamed {W : Type} (h : Handler W) (w : W)
    (wp : Wordpress) (cronJob : batchv1beta1.CronJob) :
  (h (GetCronJob {| types.Namespace := Namespace wp;
                    types.Name := ComponentName wp wordpress.WordpressCron |}) w).1
  = (cronJob, None) →
  Forall (λ ref, ¬ namesByKindAndName wp ref) (batchv1beta1.OwnerReferences cronJob) →
  trace (run h (cleanupCronJob ComponentName wp) w)
  = [ev (GetCronJob {| types.Namespace := Namespace wp;
                       types.Name := ComponentName wp wordpress.WordpressCron |})
        (cronJob, None)]
  ∧ deletes (trace (run h (cleanupCronJob ComponentName wp) w)) = []
  ∧ result (run h (cleanupCronJob ComponentName wp) w) = None.
Proof.
  intros Hget Hrefs. unfold cleanupCronJob. cbn.
  destruct (h (GetCronJob _) w) as [[cj err] w1]. cbn in Hget.
  injection Hget as -> ->. cbn.
  by rewrite (isOwnedBy_unnamed _ _ Hrefs).
Qed.

(** The other side of the test: a reference of that kind and name, whatever
    its controller flag and UID, gets the cron job deleted. *)
Lemma cleanupCronJob_deletes_named {W : Type} (h : Handler W) (w : W)
    (wp : Wordpress) (cronJob : batchv1beta1.CronJob) :
  (h (GetCronJob {| types.Namespace := Namespace wp;
                    types.Name := ComponentName wp wordpress.WordpressCron |}) w).1
  = (cronJob, None) →
  Exists (namesByKindAndName wp) (batchv1beta1.OwnerReferences cronJob) →
  deletes (trace (run h (cleanupCronJob ComponentName wp) w)) = [cronJob].
Proof.
  intros Hget Hrefs. unfold cleanupCronJob. cbn.
  destruct (h (GetCronJob _) w) as [[cj err] w1]. cbn in Hget.
  injection Hget as -> ->. cbn.
  rewrite (isOwnedBy_named _ _ Hrefs). cbn.
  by destruct (h (Delete cronJob) w1) as [err w2].
Qed.

End Pass.

(** ** The theorems at work on the sample cluster *)

Lemma Reconcile_migration_stops_witness :
  ∃ err : option error,
    trace Sample.legacyPass
    = [ev (Get (reconcile.NamespacedName Sample.request)) (Sample.legacySite, None);
       ev (Update (maybeMigrate Sample.legacySite).1) err]
    ∧ result Sample.legacyPass = (reconcile.zero, err).
Proof.
  apply (Reconcile_migration_stops Sample.ComponentName Sample.handler
           (Sample.cluster (Some Sample.legacySite) 0 None)
           Sample.request Sample.legacySite); reflexivity.
Defined.

Lemma Reconcile_fetch_error_witness :
  trace Sample.missingPass
  = [ev (Get (reconcile.NamespacedName Sample.request))
        (Sample.blank, Some Sample.notFound)]
  ∧ (errors.IsNotFound (Some Sample.notFound) = true →
     result Sample.missingPass = (reconcile.zero, None))
  ∧ (errors.IsNotFound (Some Sample.notFound) = false →
     result Sample.missingPass = (reconcile.zero, Some Sample.notFound)).
Proof.
  apply (Reconcile_fetch_error Sample.ComponentName Sample.handler
           (Sample.cluster None 0 None) Sample.request Sample.blank Sample.notFound).
  reflexivity.
Defined.

(** An unreachable store: the error of the fetch is the error of the pass. *)
Example Reconcile_store_down :
  run Sample.down (Reconcile Sample.ComponentName Sample.request)
    (Sample.cluster (Some Sample.routedSite) 3 None)
  = ((reconcile.zero, Some Sample.unavailable),
     Sample.cluster (Some Sample.routedSite) 3 None,
     [ev (Get (reconcile.NamespacedName Sample.request))
         (Sample.blank, Some Sample.unavailable)]).
Proof. reflexivity. Qed.


Lemma Reconcile_status_write_witness :
  ∃ (wp : Wordpress) (deployment : appsv1.Deployment),
    defaulted (trace Sample.routedPass) = Some wp
    ∧ observed (trace Sample.routedPass) = Some deployment
    ∧ statusUpdates (trace Sample.routedPass)
      = if Z.eqb (Replicas (Status wp)) (appsv1.Replicas (appsv1.Status deployment))
        then []
        else [set_Replicas (appsv1.Replicas (appsv1.Status deployment)) wp].
Proof.
  apply (Reconcile_status_write Sample.ComponentName Sample.handler
           (Sample.cluster (Some Sample.routedSite) 3 (Some Sample.foreignCron))
           Sample.request Sample.routedSite); reflexivity.
Defined.

Lemma Reconcile_routes_present_witness :
  (maybeMigrate Sample.routedSite).2 = false
  ∧ Domains (Spec (maybeMigrate Sample.routedSite).1) = []
  ∧ updates (trace Sample.routedPass) = []
  ∧ calls (trace Sample.routedPass) !! 1%nat = Some (SchemeDefault Sample.routedSite)
  ∧ ∃ wp : Wordpress,
      defaulted (trace Sample.routedPass) = Some wp
      ∧ Forall (λ obj, Spec obj = Spec wp) (statusUpdates (trace Sample.routedPass)).
Proof.
  apply (Reconcile_routes_present Sample.ComponentName Sample.handler
           (Sample.cluster (Some Sample.routedSite) 3 (Some Sample.foreignCron))
           Sample.request Sample.routedSite); [reflexivity|].
  vm_compute. discriminate.
Defined.

Lemma cleanupCronJob_spares_unnamed_witness :
  trace (Sample.reap Sample.foreignCron)
  = [ev (GetCronJob Sample.cronKey) (Sample.foreignCron, None)]
  ∧ deletes (trace (Sample.reap Sample.foreignCron)) = []
  ∧ result (Sample.reap Sample.foreignCron) = None.
Proof.
  apply (cleanupCronJob_spares_unnamed Sample.ComponentName Sample.handler
           (Sample.cluster (Some Sample.routedSite) 1 (Some Sample.foreignCron))
           Sample.routedSite Sample.foreignCron); [reflexivity|].
  apply (bool_decide_unpack _). vm_compute. reflexivity.
Defined.

(** C5, as stated, fails.  Neither cron job names the site as controller:
    the first is controlled by a workload and lists the site as a plain
    owner, the second is controlled by another resource of the same kind
    and name.  The cleanup deletes both. *)
Lemma cleanupCronJob_deletes_uncontrolled :
  controlledBy Sample.borrowedCron Sample.routedSite = false
  ∧ deletes (trace (Sample.reap Sample.borrowedCron)) = [Sample.borrowedCron]
  ∧ controlledBy Sample.namesakeCron Sample.routedSite = false
  ∧ deletes (trace (Sample.reap Sample.namesakeCron)) = [Sample.namesakeCron].
Proof. vm_compute. done. Qed.

(** * Further properties of the controller *)

(** ** [ignoreNotFound] *)

(** X1.  What [ignoreNotFound] returns is never a NotFound error; it
    returns nil exactly for nil and for NotFound errors; applying it twice
    is applying it once. *)
Theorem ignoreNotFound_never_NotFound (err : option error) :
  errors.IsNotFound (ignoreNotFound err) = false
  ∧ (ignoreNotFound err = None ↔ err = None ∨ errors.IsNotFound err = true)
  ∧ ignoreNotFound (ignoreNotFound err) = ignoreNotFound err.
Proof.
  unfold ignoreNotFound.
  destruct err as [[[] msg]|]; cbn; split_and!; try done.
  all: split; [intros ?; (by left) || (by right) || discriminate|intros [?|?]; done || discriminate].
Qed.

(** ** [isOwnedBy] *)

(** X2.  [isOwnedBy] answers true exactly when some reference has kind
    "Wordpress" or "wordpress" and the owner's name; in particular it
    answers false on an empty list. *)
Theorem isOwnedBy_iff (refs : list metav1.OwnerReference) (owner : Wordpress) :
  isOwnedBy refs owner = true ↔ Exists (namesByKindAndName owner) refs.
Proof.
  split; [|apply isOwnedBy_named].
  intros H. destruct (decide (Exists (namesByKindAndName owner) refs)) as [|Hn]; [done|].
  apply not_Exists_Forall in Hn; [|apply _].
  rewrite (isOwnedBy_unnamed _ _ Hn) in H. done.
Qed.

(** X3.  Over two lists of references put end to end, [isOwnedBy] is the
    disjunction of its answers on each. *)
Theorem isOwnedBy_app (refs refs' : list metav1.OwnerReference) (owner : Wordpress) :
  isOwnedBy (refs ++ refs') owner = isOwnedBy refs owner || isOwnedBy refs' owner.
Proof.
  induction refs as [|ref refs IH]; [reflexivity|].
  cbn. rewrite IH. by destruct (_ && _).
Qed.

(** X4.  [isOwnedBy] reads the kind and the name of each reference and the
    name of the owner, nothing else: two lists of references with the same
    kinds and names, against two owners of the same name, get the same
    answer, whatever their UIDs, API versions, controller flags and
    namespaces. *)
Theorem isOwnedBy_kind_and_name_only
    (refs refs' : list metav1.OwnerReference) (owner owner' : Wordpress) :
  map (λ ref, (metav1.Kind ref, metav1.Name ref)) refs
  = map (λ ref, (metav1.Kind ref, metav1.Name ref)) refs' →
  Name owner = Name owner' →
  isOwnedBy refs owner = isOwnedBy refs' owner'.
Proof.
  intros Hrefs Hname. revert refs' Hrefs.
  induction refs as [|ref refs IH]; intros [|ref' refs'] Hrefs; try done.
  cbn in Hrefs. injection Hrefs as Hk Hn Hrest.
  cbn. rewrite Hk, Hn, Hname, (IH refs' Hrest). reflexivity.
Qed.

(** ** [maybeMigrate] *)

Lemma maybeMigrate_again (wp : Wordpress) :
  maybeMigrate (maybeMigrate wp).1 = ((maybeMigrate wp).1, false).
Proof.
  destruct (Routes (Spec wp)) as [|r rs] eqn:Hr.
  - rewrite (maybeMigrate_no_routes wp Hr). cbn [fst].
    destruct (Domains (Spec wp)) as [|d ds] eqn:Hd.
    + by rewrite maybeMigrate_no_routes.
    + by rewrite maybeMigrate_routes.
  - rewrite (maybeMigrate_routes wp) by (by rewrite Hr). cbn [fst].
    rewrite maybeMigrate_routes; [done|]. cbn. by rewrite Hr.
Qed.

(** X5.  For every resource, migrating the outcome of a migration returns
    it unchanged with the flag down. *)
Theorem maybeMigrate_idempotent (wp : Wordpress) :
  maybeMigrate (maybeMigrate wp).1 = ((maybeMigrate wp).1, false).
Proof. apply maybeMigrate_again. Qed.

(** X6.  The resource [maybeMigrate] returns has the name, namespace, UID,
    status and volume specifications of its input; its deprecated domain
    list is empty; the routes of the input are kept, in order, at the head
    of its routes. *)
Theorem maybeMigrate_frame (wp : Wordpress) :
  Name (maybeMigrate wp).1 = Name wp
  ∧ Namespace (maybeMigrate wp).1 = Namespace wp
  ∧ UID (maybeMigrate wp).1 = UID wp
  ∧ Status (maybeMigrate wp).1 = Status wp
  ∧ CodeVolumeSpec_ (Spec (maybeMigrate wp).1) = CodeVolumeSpec_ (Spec wp)
  ∧ MediaVolumeSpec_ (Spec (maybeMigrate wp).1) = MediaVolumeSpec_ (Spec wp)
  ∧ Domains (Spec (maybeMigrate wp).1) = []
  ∧ Routes (Spec wp) `prefix_of` Routes (Spec (maybeMigrate wp).1).
Proof.
  destruct (Routes (Spec wp)) as [|r rs] eqn:Hr.
  - rewrite (maybeMigrate_no_routes wp Hr). cbn. split_and!; try done.
    apply prefix_nil.
  - rewrite (maybeMigrate_routes wp) by (by rewrite Hr). cbn. by rewrite Hr.
Qed.

(** X7.  [maybeMigrate] raises its flag exactly when the resource has no
    route and at least one deprecated domain; when the flag is down the
    routes returned are the routes of the input. *)
Theorem maybeMigrate_changed_iff (wp : Wordpress) :
  ((maybeMigrate wp).2 = true ↔ Routes (Spec wp) = [] ∧ Domains (Spec wp) ≠ [])
  ∧ ((maybeMigrate wp).2 = false → Routes (Spec (maybeMigrate wp).1) = Routes (Spec wp)).
Proof.
  destruct (Routes (Spec wp)) as [|r rs] eqn:Hr.
  - rewrite (maybeMigrate_no_routes wp Hr). cbn.
    destruct (Domains (Spec wp)) as [|d ds]; cbn.
    + split; [|done]. split; [discriminate|]. by intros [_ ?].
    + split; [|discriminate]. done.
  - rewrite (maybeMigrate_routes wp) by (by rewrite Hr). cbn. rewrite Hr.
    split; [|done]. split; [discriminate|]. by intros [? _].
Qed.

(** ** [sync] *)

(** X8.  Running the pipeline over two lists put end to end is running it
    over the first and, when that returns nil, over the second from the
    state the first left; when the first returns an error, that error is
    returned and nothing of the second is run. *)
Theorem sync_app {W : Type} (h : Handler W) (w : W) (l1 l2 : list syncer.Interface) :
  run h (sync (l1 ++ l2)) w
  = let '(r1, w1, t1) := run h (sync l1) w in
    match r1 with
    | Some e => (Some e, w1, t1)
    | None => let '(r2, w2, t2) := run h (sync l2) w1 in (r2, w2, t1 ++ t2)
    end.
Proof.
  revert w. induction l1 as [|s l1 IH]; intros w.
  - cbn. by destruct (run h (sync l2) w) as [[r2 w2] t2].
  - cbn. destruct (h (Sync s) w) as [[e|] w1]; cbn; [done|].
    rewrite IH. destruct (run h (sync l1) w1) as [[[e|] w2] t1]; [done|].
    by destruct (run h (sync l2) w2) as [[r2 w3] t2].
Qed.

(** ** Paths of a pass *)

Lemma holds_bind {W A B : Type} (h : Handler W) (m : Prog A) (f : A → Prog B) (w : W)
    (Q : B → list Event → Prop) :
  (∀ (a : A) (w1 : W) (t1 : list Event),
     run h m w = (a, w1, t1) → holds h (f a) w1 (λ b t2, Q b (t1 ++ t2))) →
  holds h (bind m f) w Q.
Proof.
  intros H. unfold holds in *. rewrite run_bind.
  destruct (run h m w) as [[a w1] t1]. specialize (H a w1 t1 eq_refl).
  by destruct (run h (f a) w1) as [[b w2] t2].
Qed.

Lemma holds_run {W R : Type} (h : Handler W) (p : Prog R) (w : W)
    (Q : R → list Event → Prop) :
  holds h p w Q → Q (result (run h p w)) (trace (run h p w)).
Proof. done. Qed.

(** Turns a goal about the result and the trace of a run into a [holds]
    goal. *)
Ltac on_run :=
  match goal with
  | |- context [trace (run ?h ?p ?w)] =>
      pattern (result (run h p w)), (trace (run h p w)); apply holds_run
  end.

(** As [pass], but stops in front of the reaper. *)
Ltac pass_to_cleanup :=
  repeat (match goal with
          | |- holds ?h ?p ?w ?Q =>
              let p' := eval cbn -[ignoreNotFound cleanupCronJob] in p in
              change (holds h p' w Q)
          end;
          lazymatch goal with
          | |- holds _ (Ret _) _ _ => fail
          | |- holds _ (bind (cleanupCronJob _ _) _) _ _ => fail
          | |- holds _ (Vis _ _) _ _ =>
              let x := fresh "x" in
              apply holds_Vis; intros x ? ?; cbn in x
          | |- holds _ ?p _ _ =>
              match p with
              | context [if ?b then _ else _] => destruct b eqn:?
              | context [match ?x with Some _ => _ | None => _ end] => destruct x
              | context [let (_, _) := ?x in _] => destruct x
              end
          end).

Section Paths.
Variable ComponentName : Wordpress → wordpress.component → string.

(** X11.  In a pass that fetched the resource and needed no migration,
    when a syncer fails: that [Sync] call is the last call of the pass, its
    error is the error of the pass, the workload object is not read, and
    the pass makes no status update and no cron-job call. *)
Theorem Reconcile_pipeline_failure {W : Type} (h : Handler W) (w : W)
    (request : reconcile.Request) (wp0 : Wordpress) :
  (h (Get (reconcile.NamespacedName request)) w).1 = (wp0, None) →
  (maybeMigrate wp0).2 = false →
  pipelineOk (trace (run h (Reconcile ComponentName request) w)) = false →
  ∃ (s : syncer.Interface) (e : error),
    last (trace (run h (Reconcile ComponentName request) w)) = Some (ev (Sync s) (Some e))
    ∧ result (run h (Reconcile ComponentName request) w) = (reconcile.zero, Some e)
    ∧ observed (trace (run h (Reconcile ComponentName request) w)) = None
    ∧ statusUpdates (trace (run h (Reconcile ComponentName request) w)) = []
    ∧ cronCalls (trace (run h (Reconcile ComponentName request) w)) = [].
Proof.
  intros Hget Hm. on_run. unfold Reconcile, cleanupCronJob.
  apply holds_Vis. intros [wp' err] w1 Hx. rewrite Hx in Hget.
  injection Hget as -> ->. cbn [mbind Prog_bind bind].
  destruct (maybeMigrate wp0) as [updated needs]. cbn in Hm. subst needs.
  pass.
  all: leaf; intros Hok; try discriminate Hok.
  all: by eexists _, _.
Qed.

(** X12.  In a pass that fetched the resource and needed no migration,
    when the status update fails: it is the last call of the pass, its
    error is the error of the pass, every syncer had answered nil, and the
    pass makes no cron-job call. *)
Theorem Reconcile_status_failure {W : Type} (h : Handler W) (w : W)
    (request : reconcile.Request) (wp0 : Wordpress) :
  (h (Get (reconcile.NamespacedName request)) w).1 = (wp0, None) →
  (maybeMigrate wp0).2 = false →
  statusWritesOk (trace (run h (Reconcile ComponentName request) w)) = false →
  ∃ (obj : Wordpress) (e : error),
    last (trace (run h (Reconcile ComponentName request) w))
    = Some (ev (StatusUpdate obj) (Some e))
    ∧ result (run h (Reconcile ComponentName request) w) = (reconcile.zero, Some e)
    ∧ pipelineOk (trace (run h (Reconcile ComponentName request) w)) = true
    ∧ cronCalls (trace (run h (Reconcile ComponentName request) w)) = [].
Proof.
  intros Hget Hm. on_run. unfold Reconcile, cleanupCronJob.
  apply holds_Vis. intros [wp' err] w1 Hx. rewrite Hx in Hget.
  injection Hget as -> ->. cbn [mbind Prog_bind bind].
  destruct (maybeMigrate wp0) as [updated needs]. cbn in Hm. subst needs.
  pass.
  all: leaf; intros Hok; try discriminate Hok.
  all: by eexists _, _.
Qed.

(** X14.  Whatever the collaborators answer, a pass makes at most one
    write of the resource (a whole-resource update or a status update,
    never both) and at most one delete, and no delete when it made a
    whole-resource update. *)
Theorem Reconcile_writes_once {W : Type} (h : Handler W) (w : W)
    (request : reconcile.Request) :
  (length (updates (trace (run h (Reconcile ComponentName request) w)))
   + length (statusUpdates (trace (run h (Reconcile ComponentName request) w))) ≤ 1)%nat
  ∧ (length (deletes (trace (run h (Reconcile ComponentName request) w))) ≤ 1)%nat
  ∧ (updates (trace (run h (Reconcile ComponentName request) w)) ≠ [] →
     deletes (trace (run h (Reconcile ComponentName request) w)) = []).
Proof.
  on_trace. unfold Reconcile, cleanupCronJob.
  pass.
  all: leaf; split_and!; try lia; done.
Qed.

(** X15.  When the resource fetched is the outcome of a migration, the
    pass makes no whole-resource update and goes on to default it: the
    write made by a migrating pass does not bring about another. *)
Theorem Reconcile_after_migration {W : Type} (h : Handler W) (w : W)
    (request : reconcile.Request) (wp : Wordpress) :
  (h (Get (reconcile.NamespacedName request)) w).1 = ((maybeMigrate wp).1, None) →
  updates (trace (run h (Reconcile ComponentName request) w)) = []
  ∧ calls (trace (run h (Reconcile ComponentName request) w)) !! 1%nat
    = Some (SchemeDefault (maybeMigrate wp).1).
Proof.
  intros Hget. on_trace. unfold Reconcile, cleanupCronJob.
  apply holds_Vis. intros [wp' err] w1 Hx. rewrite Hx in Hget.
  injection Hget as -> ->. cbn [mbind Prog_bind bind].
  rewrite maybeMigrate_again.
  pass.
  all: by leaf.
Qed.

(** X13.  In a pass that fetched the resource, needed no migration, and
    in which no syncer and no status update failed, with [wp] the resource
    as defaulted and [deployment] the workload object read: the pass ends
    with the run of [cleanupCronJob] on [wp] carrying the reported replica
    count, the cron-job calls of the pass are those of that run, and the
    error of the pass is what that run returned. *)
Theorem Reconcile_ends_with_cleanup {W : Type} (h : Handler W) (w : W)
    (request : reconcile.Request) (wp0 : Wordpress) :
  (h (Get (reconcile.NamespacedName request)) w).1 = (wp0, None) →
  (maybeMigrate wp0).2 = false →
  pipelineOk (trace (run h (Reconcile ComponentName request) w)) = true →
  statusWritesOk (trace (run h (Reconcile ComponentName request) w)) = true →
  ∃ (wp : Wordpress) (deployment : appsv1.Deployment) (w' : W),
    defaulted (trace (run h (Reconcile ComponentName request) w)) = Some wp
    ∧ observed (trace (run h (Reconcile ComponentName request) w)) = Some deployment
    ∧ trace (run h (cleanupCronJob ComponentName
                      (set_Replicas (appsv1.Replicas (appsv1.Status deployment)) wp)) w')
      `suffix_of` trace (run h (Reconcile ComponentName request) w)
    ∧ cronCalls (trace (run h (Reconcile ComponentName request) w))
      = cronCalls (trace (run h (cleanupCronJob ComponentName
                      (set_Replicas (appsv1.Replicas (appsv1.Status deployment)) wp)) w'))
    ∧ result (run h (Reconcile ComponentName request) w)
      = (reconcile.zero,
         result (run h (cleanupCronJob ComponentName
                      (set_Replicas (appsv1.Replicas (appsv1.Status deployment)) wp)) w')).
Proof.
  intros Hget Hm. on_run. unfold Reconcile.
  apply holds_Vis. intros [wp' err] w1 Hx. rewrite Hx in Hget.
  injection Hget as -> ->. cbn [mbind Prog_bind bind].
  destruct (maybeMigrate wp0) as [updated needs]. cbn in Hm. subst needs.
  pass_to_cleanup.
  all: match goal with
       | |- holds ?h ?p ?w ?Q =>
           let p' := eval cbn -[ignoreNotFound cleanupCronJob] in p in
           change (holds h p' w Q)
       end.
  all: try (leaf; intros Hok Hst; discriminate Hok || discriminate Hst).
  all: unfold mbind, Prog_bind; apply holds_bind; intros r wEnd t Hrun.
  all: destruct r; apply holds_Ret; cbv beta; cbn -[cleanupCronJob]; intros _ _.
  all: match type of Hrun with run _ _ ?w' = _ => eexists _, _, w' end.
  all: (split; [reflexivity|]); (split; [reflexivity|]).
  all: rewrite Hrun; unfold result, trace; cbn [fst snd].
  all: rewrite app_nil_r; (split; [|done]).
  all: repeat apply suffix_cons_r; done.
Qed.

(** X9.  When the fetch of the legacy cron job returns an error, the
    cleanup makes no other call; it returns nil if the error is NotFound
    and the error itself otherwise. *)
Theorem cleanupCronJob_fetch_error {W : Type} (h : Handler W) (w : W)
    (wp : Wordpress) (cronJob : batchv1beta1.CronJob) (e : error) :
  (h (GetCronJob {| types.Namespace := Namespace wp;
                    types.Name := ComponentName wp wordpress.WordpressCron |}) w).1
  = (cronJob, Some e) →
  trace (run h (cleanupCronJob ComponentName wp) w)
  = [ev (GetCronJob {| types.Namespace := Namespace wp;
                       types.Name := ComponentName wp wordpress.WordpressCron |})
        (cronJob, Some e)]
  ∧ (errors.IsNotFound (Some e) = true →
     result (run h (cleanupCronJob ComponentName wp) w) = None)
  ∧ (errors.IsNotFound (Some e) = false →
     result (run h (cleanupCronJob ComponentName wp) w) = Some e).
Proof.
  intros Hget. unfold cleanupCronJob. cbn.
  destruct (h (GetCronJob _) w) as [[cj err] w1]. cbn in Hget.
  injection Hget as -> ->. cbn. unfold result, ignoreNotFound. cbn.
  split_and!; [done|by intros ->|by intros ->].
Qed.

(** X10.  When the cron job fetched has a reference of kind "Wordpress"
    or "wordpress" and of the resource's name, the cleanup makes exactly one
    more call, the delete of the object it fetched, and returns what the
    delete returned. *)
Theorem cleanupCronJob_owned {W : Type} (h : Handler W) (w : W)
    (wp : Wordpress) (cronJob : batchv1beta1.CronJob) :
  (h (GetCronJob {| types.Namespace := Namespace wp;
                    types.Name := ComponentName wp wordpress.WordpressCron |}) w).1
  = (cronJob, None) →
  Exists (namesByKindAndName wp) (batchv1beta1.OwnerReferences cronJob) →
  ∃ err : option error,
    trace (run h (cleanupCronJob ComponentName wp) w)
    = [ev (GetCronJob {| types.Namespace := Namespace wp;
                         types.Name := ComponentName wp wordpress.WordpressCron |})
          (cronJob, None);
       ev (Delete cronJob) err]
    ∧ result (run h (cleanupCronJob ComponentName wp) w) = err.
Proof.
  intros Hget Hrefs. unfold cleanupCronJob. cbn.
  destruct (h (GetCronJob _) w) as [[cj err] w1]. cbn in Hget.
  injection Hget as -> ->. cbn.
  rewrite (isOwnedBy_named _ _ Hrefs). cbn.
  destruct (h (Delete cronJob) w1) as [err w2]. by exists err.
Qed.

End Paths.

Section Order.
Variable ComponentName : Wordpress → wordpress.component → string.

(** X16.  Whatever the collaborators answer, no call of a pass but its
    last answered an error, and the error the pass returns is the one its
    last call answered, a NotFound on a fetch being turned into nil. *)
Theorem Reconcile_fail_fast {W : Type} (h : Handler W) (w : W)
    (request : reconcile.Request) :
  (result (run h (Reconcile ComponentName request) w)).2
  = last (trace (run h (Reconcile ComponentName request) w)) ≫= returnedBy
  ∧ Forall (λ e, errorBy e = None)
      (removelast (trace (run h (Reconcile ComponentName request) w))).
Proof.
  on_run. unfold Reconcile, cleanupCronJob.
  pass.
  all: apply holds_Ret; cbv beta; cbn -[ignoreNotFound].
  all: repeat match goal with
         | H : ignoreNotFound _ = _ |- _ => rewrite H; clear H
         end.
  all: split; [reflexivity|repeat constructor].
Qed.

(** X17.  Whatever the collaborators answer, every syncer constructor of
    a pass is called before the first [Sync]: the constructor and [Sync]
    calls of a pass are its constructor calls followed by its [Sync]
    calls. *)
Theorem Reconcile_constructs_before_sync {W : Type} (h : Handler W) (w : W)
    (request : reconcile.Request) :
  List.filter (λ c, isConstructor c || isSync c)
    (calls (trace (run h (Reconcile ComponentName request) w)))
  = constructions (trace (run h (Reconcile ComponentName request) w))
    ++ map Sync (synced (trace (run h (Reconcile ComponentName request) w))).
Proof.
  on_trace. unfold Reconcile, cleanupCronJob.
  pass.
  all: by leaf.
Qed.

End Order.

(** ** Registration and bootstrap *)

Lemma boot_holds_Ret {W R : Type} (h : boot.Handler W) (r : R) (w : W)
    (Q : R → list boot.Event → Prop) :
  Q r [] → boot.holds h (boot.Ret r) w Q.
Proof. done. Qed.

Lemma boot_holds_Vis {W R : Type} (h : boot.Handler W) (c : boot.Call)
    (k : boot.resp c → boot.Prog R) (w : W) (Q : R → list boot.Event → Prop) :
  (∀ (x : boot.resp c) (w1 : W),
     h c w = (x, w1) → boot.holds h (k x) w1 (λ r tr, Q r (boot.ev c x :: tr))) →
  boot.holds h (boot.Vis c k) w Q.
Proof.
  intros H. unfold boot.holds in *. cbn.
  destruct (h c w) as [x w1]. specialize (H x w1 eq_refl).
  by destruct (boot.run h (k x) w1) as [[r w2] tr].
Qed.

Lemma boot_holds_run {W R : Type} (h : boot.Handler W) (p : boot.Prog R) (w : W)
    (Q : R → list boot.Event → Prop) :
  boot.holds h p w Q → Q (boot.result (boot.run h p w)) (boot.trace (boot.run h p w)).
Proof. done. Qed.

Lemma boot_run_bind {W A B : Type} (h : boot.Handler W) (m : boot.Prog A)
    (f : A → boot.Prog B) (w : W) :
  boot.run h (boot.bind m f) w
  = let '(a, w1, t1) := boot.run h m w in
    let '(b, w2, t2) := boot.run h (f a) w1 in
    (b, w2, t1 ++ t2).
Proof.
  revert w. induction m as [a|c k IH]; intros w; cbn.
  - by destruct (boot.run h (f a) w) as [[b w2] t2].
  - destruct (h c w) as [x w1]. rewrite IH.
    destruct (boot.run h (k x) w1) as [[a w2] t1].
    by destruct (boot.run h (f a) w2) as [[b w3] t2].
Qed.

Ltac boot_on_run :=
  match goal with
  | |- context [boot.trace (boot.run ?h ?p ?w)] =>
      pattern (boot.result (boot.run h p w)), (boot.trace (boot.run h p w));
      apply boot_holds_run
  end.

Ltac boot_pass :=
  repeat (match goal with
          | |- boot.holds ?h ?p ?w ?Q =>
              let p' := eval cbn in p in
              change (boot.holds h p' w Q)
          end;
          lazymatch goal with
          | |- boot.holds _ (boot.Ret _) _ _ => fail
          | |- boot.holds _ (boot.Vis _ _) _ _ =>
              let x := fresh "x" in
              apply boot_holds_Vis; intros x ? ?; cbn in x
          | |- boot.holds _ ?p _ _ =>
              match p with
              | context [match ?x with Some _ => _ | None => _ end] => destruct x
              | context [let (_, _) := ?x in _] => destruct x
              end
          end).

Ltac boot_leaf := apply boot_holds_Ret; cbv beta; cbn.

(** X18.  Whatever the collaborators answer, the calls of [add] are a
    prefix of: [controller.New], the watch on Wordpress objects themselves,
    then the watches on deployments, claims, services, secrets and
    ingresses, each enqueueing the controlling Wordpress owner.  A call
    that fails is the last one made and its error is returned; [add]
    returns nil only after making all seven calls. *)
Theorem add_registers_in_order {W : Type} (h : boot.Handler W) (w : W)
    (mgr : boot.Manager) (r : boot.ReconcileWordpress) :
  ∃ c : boot.Controller,
    head (omap boot.controllerBy (boot.trace (boot.run h (boot.add mgr r) w))) = Some c
    ∧ boot.calls (boot.trace (boot.run h (boot.add mgr r) w))
      `prefix_of` boot.registration mgr r c
    ∧ boot.failures (boot.trace (boot.run h (boot.add mgr r) w))
      = match boot.result (boot.run h (boot.add mgr r) w) with
        | Some e => [e]
        | None => []
        end
    ∧ last (boot.trace (boot.run h (boot.add mgr r) w)) ≫= boot.errorOf
      = boot.result (boot.run h (boot.add mgr r) w)
    ∧ (boot.result (boot.run h (boot.add mgr r) w) = None →
       boot.calls (boot.trace (boot.run h (boot.add mgr r) w))
       = boot.registration mgr r c).
Proof.
  boot_on_run. unfold boot.add.
  boot_pass.
  all: boot_leaf.
  all: eexists; split; [reflexivity|].
  all: split; [by eexists|].
  all: done.
Qed.

(** X19.  [Add] asks the manager for its client, its scheme and the
    event recorder named after the controller, in that order, and then runs
    [add] with the reconciler made of exactly these three; it returns what
    [add] returns. *)
Theorem Add_builds_then_registers {W : Type} (h : boot.Handler W) (w : W)
    (mgr : boot.Manager) :
  ∃ (c : boot.Client) (s : boot.Scheme) (rec : boot.EventRecorder) (w' : W),
    boot.trace (boot.run h (boot.Add mgr) w)
    = [boot.ev (boot.GetClient mgr) c;
       boot.ev (boot.GetScheme mgr) s;
       boot.ev (boot.GetEventRecorderFor mgr boot.controllerName) rec]
      ++ boot.trace (boot.run h (boot.add mgr
                       {| boot.client := c; boot.scheme := s; boot.recorder := rec |}) w')
    ∧ boot.result (boot.run h (boot.Add mgr) w)
      = boot.result (boot.run h (boot.add mgr
                       {| boot.client := c; boot.scheme := s; boot.recorder := rec |}) w').
Proof.
  unfold boot.Add, boot.newReconciler. cbn -[boot.add].
  destruct (h (boot.GetClient mgr) w) as [c w1].
  destruct (h (boot.GetScheme mgr) w1) as [s w2].
  destruct (h (boot.GetEventRecorderFor mgr boot.controllerName) w2) as [rec w3].
  exists c, s, rec, w3.
  by destruct (boot.run h (boot.add mgr _) w3) as [[r w4] tr].
Qed.

(** X20.  Whatever the collaborators answer, at most one call of [main]
    answers an error; [main] logs the errors answered and no other; it
    ends with 0 when no call failed and with 1 otherwise; after a failing
    call it makes one call only, the log of that error. *)
Theorem main_exit_code {W : Type} (h : boot.Handler W) (w : W) :
  (length (boot.failures (boot.trace (boot.run h boot.main w))) ≤ 1)%nat
  ∧ map fst (boot.logged (boot.trace (boot.run h boot.main w)))
    = boot.failures (boot.trace (boot.run h boot.main w))
  ∧ boot.result (boot.run h boot.main w)
    = match boot.failures (boot.trace (boot.run h boot.main w)) with
      | [] => 0%Z
      | _ => 1%Z
      end
  ∧ ∀ e : error,
      e ∈ boot.failures (boot.trace (boot.run h boot.main w)) →
      ∃ (pre : list boot.Event) (failing : boot.Event) (msg : string),
        boot.trace (boot.run h boot.main w)
        = pre ++ [failing; boot.ev (boot.LogError e msg) tt]
        ∧ boot.errorOf failing = Some e.
Proof.
  boot_on_run. unfold boot.main.
  boot_pass.
  all: boot_leaf.
  all: repeat match goal with x : unit |- _ => destruct x end.
  all: split_and!; try done; try lia.
  all: intros e' He'; try (by apply not_elem_of_nil in He').
  all: apply list_elem_of_singleton in He' as ->.
  all: match goal with
       | |- ∃ pre _ _, ?tr = _ ∧ _ => exists (take (length tr - 2) tr)
       end.
  all: by eexists _, _.
Qed.


(** ** The further theorems at work on the samples *)

Lemma isOwnedBy_kind_and_name_only_witness :
  isOwnedBy (batchv1beta1.OwnerReferences Sample.namesakeCron) Sample.routedSite
  = isOwnedBy Drill.plainRefs Sample.legacySite.
Proof.
  apply (isOwnedBy_kind_and_name_only
           (batchv1beta1.OwnerReferences Sample.namesakeCron) Drill.plainRefs
           Sample.routedSite Sample.legacySite); reflexivity.
Defined.

Lemma cleanupCronJob_fetch_error_witness :
  trace Drill.reapNothing
  = [ev (GetCronJob Sample.cronKey) (Sample.blankCron, Some Sample.notFound)]
  ∧ (errors.IsNotFound (Some Sample.notFound) = true →
     result Drill.reapNothing = None)
  ∧ (errors.IsNotFound (Some Sample.notFound) = false →
     result Drill.reapNothing = Some Sample.notFound).
Proof.
  apply (cleanupCronJob_fetch_error Sample.ComponentName Sample.handler
           (Sample.cluster (Some Sample.routedSite) 1 None)
           Sample.routedSite Sample.blankCron Sample.notFound).
  reflexivity.
Defined.

Lemma cleanupCronJob_owned_witness :
  ∃ err : option error,
    trace (Sample.reap Sample.borrowedCron)
    = [ev (GetCronJob Sample.cronKey) (Sample.borrowedCron, None);
       ev (Delete Sample.borrowedCron) err]
    ∧ result (Sample.reap Sample.borrowedCron) = err.
Proof.
  apply (cleanupCronJob_owned Sample.ComponentName Sample.handler
           (Sample.cluster (Some Sample.routedSite) 1 (Some Sample.borrowedCron))
           Sample.routedSite Sample.borrowedCron); [reflexivity|].
  apply (bool_decide_unpack _). vm_compute. reflexivity.
Defined.

Lemma Reconcile_pipeline_failure_witness :
  ∃ (s : syncer.Interface) (e : error),
    last (trace Drill.failedPipelinePass) = Some (ev (Sync s) (Some e))
    ∧ result Drill.failedPipelinePass = (reconcile.zero, Some e)
    ∧ observed (trace Drill.failedPipelinePass) = None
    ∧ statusUpdates (trace Drill.failedPipelinePass) = []
    ∧ cronCalls (trace Drill.failedPipelinePass) = [].
Proof.
  apply (Reconcile_pipeline_failure Sample.ComponentName Sample.flaky
           (Sample.cluster (Some Sample.routedSite) 3 None)
           Sample.request Sample.routedSite); reflexivity.
Defined.

Lemma Reconcile_status_failure_witness :
  ∃ (obj : Wordpress) (e : error),
    last (trace Drill.frozenPass) = Some (ev (StatusUpdate obj) (Some e))
    ∧ result Drill.frozenPass = (reconcile.zero, Some e)
    ∧ pipelineOk (trace Drill.frozenPass) = true
    ∧ cronCalls (trace Drill.frozenPass) = [].
Proof.
  apply (Reconcile_status_failure Sample.ComponentName Drill.frozenStatus
           (Sample.cluster (Some Sample.routedSite) 3 None)
           Sample.request Sample.routedSite); reflexivity.
Defined.

Lemma Reconcile_ends_with_cleanup_witness :
  ∃ (wp : Wordpress) (deployment : appsv1.Deployment) (w' : Sample.Cluster),
    defaulted (trace Sample.routedPass) = Some wp
    ∧ observed (trace Sample.routedPass) = Some deployment
    ∧ trace (run Sample.handler
               (cleanupCronJob Sample.ComponentName
                  (set_Replicas (appsv1.Replicas (appsv1.Status deployment)) wp)) w')
      `suffix_of` trace Sample.routedPass
    ∧ cronCalls (trace Sample.routedPass)
      = cronCalls (trace (run Sample.handler
               (cleanupCronJob Sample.ComponentName
                  (set_Replicas (appsv1.Replicas (appsv1.Status deployment)) wp)) w'))
    ∧ result Sample.routedPass
      = (reconcile.zero,
         result (run Sample.handler
               (cleanupCronJob Sample.ComponentName
                  (set_Replicas (appsv1.Replicas (appsv1.Status deployment)) wp)) w')).
Proof.
  apply (Reconcile_ends_with_cleanup Sample.ComponentName Sample.handler
           (Sample.cluster (Some Sample.routedSite) 3 (Some Sample.foreignCron))
           Sample.request Sample.routedSite); reflexivity.
Defined.

Lemma Reconcile_after_migration_witness :
  updates (trace Drill.migratedPass) = []
  ∧ calls (trace Drill.migratedPass) !! 1%nat
    = Some (SchemeDefault (maybeMigrate Sample.legacySite).1).
Proof.
  apply (Reconcile_after_migration Sample.ComponentName Sample.handler
           (Sample.cluster (Some (maybeMigrate Sample.legacySite).1) 0 None)
           Sample.request Sample.legacySite); reflexivity.
Defined.


(** The third watch is refused: the registration stops there. *)
Example add_third_watch_refused :
  boot.calls (boot.trace (boot.run Drill.refusing
                (boot.add (boot.ManagerRef 0)
                   {| boot.client := boot.ClientRef 0; boot.scheme := boot.SchemeRef 0;
                      boot.recorder := boot.RecorderRef 0 |}) 0%nat))
  = take 4 (boot.registration (boot.ManagerRef 0)
              {| boot.client := boot.ClientRef 0; boot.scheme := boot.SchemeRef 0;
                 boot.recorder := boot.RecorderRef 0 |} (boot.ControllerRef 0))
  ∧ boot.result (boot.run Drill.refusing
                (boot.add (boot.ManagerRef 0)
                   {| boot.client := boot.ClientRef 0; boot.scheme := boot.SchemeRef 0;
                      boot.recorder := boot.RecorderRef 0 |}) 0%nat)
    = Some Sample.unavailable.
Proof. by vm_compute. Qed.
